(** * soccer_stats: the footystats spider, embedded and verified

    The development follows [soccer_stats/spiders/footy_stats_spider.py].
    The spider's callbacks are Python generators over Scrapy objects; they
    are embedded here as computations in a small monad that threads the
    object store (items are mutable and shared), the sequence of yielded
    values, and a raised exception if any.

    Library code the spider calls is modelled next to it:
    - [hashlib.md5] as the MD5 algorithm of RFC 1321 on byte lists;
    - [str] / [repr] of Python values and [str.encode] (UTF-8);
    - parsel selector lists (a page answers structural queries);
    - Scrapy's [Item] and [ItemLoader];
    - [response.follow], which builds the request for a link or raises
      [ValueError]; which links it refuses is part of the response.

    Python text is represented by Rocq strings, one character per code
    point, so the strings covered are those with code points below 256.

    [soccer_stats/items.py] is not among the sources. The item classes are
    taken to declare every field the spider loads or assigns (as the data
    model of the spec lists them), and the input and output processors
    they declare per field are a parameter, [Schema], of the callbacks. *)

From Stdlib Require Import ZArith List Ascii String.
From stdpp Require Import base option list strings gmap fin_maps pretty finite.

Set Warnings "-register-all".
Local Open Scope string_scope.
Local Open Scope Z_scope.

(** ** MD5 (RFC 1321), as [hashlib.md5(data).hexdigest()] computes it *)
Module MD5.

Definition mask32 : Z := 0xFFFFFFFF.

(** Words are 32-bit: every sum is reduced modulo 2^32. *)
Definition add32 (x y : Z) : Z := Z.land (x + y) mask32.

Definition not32 (x : Z) : Z := Z.lxor x mask32.

Definition rotl32 (x c : Z) : Z :=
  Z.land (Z.lor (Z.shiftl x c) (Z.shiftr x (32 - c))) mask32.

(** Per-round shift amounts. *)
Definition S_table : list Z :=
  [ 7; 12; 17; 22;  7; 12; 17; 22;  7; 12; 17; 22;  7; 12; 17; 22;
    5;  9; 14; 20;  5;  9; 14; 20;  5;  9; 14; 20;  5;  9; 14; 20;
    4; 11; 16; 23;  4; 11; 16; 23;  4; 11; 16; 23;  4; 11; 16; 23;
    6; 10; 15; 21;  6; 10; 15; 21;  6; 10; 15; 21;  6; 10; 15; 21 ].

(** [K_table[i] = floor (2^32 * abs (sin (i + 1)))]. *)
Definition K_table : list Z :=
  [ 0xd76aa478; 0xe8c7b756; 0x242070db; 0xc1bdceee;
    0xf57c0faf; 0x4787c62a; 0xa8304613; 0xfd469501;
    0x698098d8; 0x8b44f7af; 0xffff5bb1; 0x895cd7be;
    0x6b901122; 0xfd987193; 0xa679438e; 0x49b40821;
    0xf61e2562; 0xc040b340; 0x265e5a51; 0xe9b6c7aa;
    0xd62f105d; 0x02441453; 0xd8a1e681; 0xe7d3fbc8;
    0x21e1cde6; 0xc33707d6; 0xf4d50d87; 0x455a14ed;
    0xa9e3e905; 0xfcefa3f8; 0x676f02d9; 0x8d2a4c8a;
    0xfffa3942; 0x8771f681; 0x6d9d6122; 0xfde5380c;
    0xa4beea44; 0x4bdecfa9; 0xf6bb4b60; 0xbebfbc70;
    0x289b7ec6; 0xeaa127fa; 0xd4ef3085; 0x04881d05;
    0xd9d4d039; 0xe6db99e5; 0x1fa27cf8; 0xc4ac5665;
    0xf4292244; 0x432aff97; 0xab9423a7; 0xfc93a039;
    0x655b59c3; 0x8f0ccc92; 0xffeff47d; 0x85845dd1;
    0x6fa87e4f; 0xfe2ce6e0; 0xa3014314; 0x4e0811a1;
    0xf7537e82; 0xbd3af235; 0x2ad7d2bb; 0xeb86d391 ].

Definition nthZ (l : list Z) (i : Z) : Z := nth (Z.to_nat i) l 0.

(** The chaining value: the four registers A, B, C, D. *)
Record state := State { rA : Z; rB : Z; rC : Z; rD : Z }.

Definition init_state : state :=
  State 0x67452301 0xefcdab89 0x98badcfe 0x10325476.

(** Round function and message-word index of operation [i]. *)
Definition round_F (i b c d : Z) : Z :=
  if i <? 16 then Z.lor (Z.land b c) (Z.land (not32 b) d)
  else if i <? 32 then Z.lor (Z.land d b) (Z.land (not32 d) c)
  else if i <? 48 then Z.lxor (Z.lxor b c) d
  else Z.lxor c (Z.lor b (not32 d)).

Definition round_g (i : Z) : Z :=
  if i <? 16 then i
  else if i <? 32 then (5 * i + 1) mod 16
  else if i <? 48 then (3 * i + 5) mod 16
  else (7 * i) mod 16.

Definition step (M : list Z) (st : state) (i : Z) : state :=
  let f := add32 (add32 (add32 (round_F i (rB st) (rC st) (rD st)) (rA st))
                        (nthZ K_table i)) (nthZ M (round_g i)) in
  State (rD st) (add32 (rB st) (rotl32 f (nthZ S_table i))) (rB st) (rC st).

Definition indices : list Z := map Z.of_nat (seq 0 64).

(** Little-endian packing of bytes into a number, and back. *)
Fixpoint le_word (bs : list Z) : Z :=
  match bs with
  | [] => 0
  | b :: bs' => b + 256 * le_word bs'
  end.

Fixpoint le_bytes (n : nat) (w : Z) : list Z :=
  match n with
  | O => []
  | S n' => (w mod 256) :: le_bytes n' (w / 256)
  end.

(** Cut a block (or the whole padded message) into pieces of [k] bytes. *)
Fixpoint chunks (k n : nat) (bs : list Z) : list (list Z) :=
  match n with
  | O => []
  | S n' => firstn k bs :: chunks k n' (skipn k bs)
  end.

Definition block_words (block : list Z) : list Z :=
  map le_word (chunks 4 16 block).

Definition compress (st : state) (block : list Z) : state :=
  let st' := fold_left (step (block_words block)) indices st in
  State (add32 (rA st) (rA st')) (add32 (rB st) (rB st'))
        (add32 (rC st) (rC st')) (add32 (rD st) (rD st')).

(** Padding: a single 0x80 byte, zeros up to 56 modulo 64, then the
    message length in bits as a 64-bit little-endian number. *)
Definition pad (msg : list Z) : list Z :=
  let len := Z.of_nat (length msg) in
  let zeros := Z.to_nat ((55 - len) mod 64) in
  msg ++ [0x80] ++ repeat 0 zeros ++ le_bytes 8 ((8 * len) mod 2 ^ 64).

Definition digest_state (msg : list Z) : state :=
  let p := pad msg in
  fold_left compress (chunks 64 (length p / 64) p) init_state.

(** [md5(msg).digest()]: the sixteen bytes of A, B, C, D, little-endian. *)
Definition digest (msg : list Z) : list Z :=
  let st := digest_state msg in
  le_bytes 4 (rA st) ++ le_bytes 4 (rB st) ++
  le_bytes 4 (rC st) ++ le_bytes 4 (rD st).

Definition hex_digit (n : Z) : ascii :=
  nth (Z.to_nat n) (list_ascii_of_string "0123456789abcdef") "0"%char.

Fixpoint hex_of_bytes (bs : list Z) : string :=
  match bs with
  | [] => ""
  | b :: bs' =>
      String (hex_digit (b / 16)) (String (hex_digit (b mod 16)) (hex_of_bytes bs'))
  end.

(** [md5(msg).hexdigest()]. *)
Definition hexdigest (msg : list Z) : string := hex_of_bytes (digest msg).

End MD5.

(** ** Python values, [repr], [str] and [str.encode] *)
Module Py.

(** The Python values that flow through the loaders and items. *)
Inductive value :=
| VNone
| VBool (b : bool)
| VInt (n : Z)
| VStr (s : string)
| VList (l : list value).

(** Truth value of an object, as [if x:] tests it. *)
Definition truthy (v : value) : bool :=
  match v with
  | VNone => false
  | VBool b => b
  | VInt n => negb (n =? 0)
  | VStr s => negb (String.eqb s "")
  | VList l => match l with [] => false | _ => true end
  end.

Definition is_none (v : value) : bool :=
  match v with VNone => true | _ => false end.

Definition code (c : ascii) : N := N_of_ascii c.

Definition squote : ascii := ascii_of_nat 39.
Definition dquote : ascii := ascii_of_nat 34.
Definition backslash : ascii := ascii_of_nat 92.

Definition hex_char (n : N) : ascii :=
  nth (N.to_nat n) (list_ascii_of_string "0123456789abcdef") "0"%char.

(** The [\xNN] escape of a code point below 256. *)
Definition hex_escape (c : ascii) : string :=
  String backslash
    (String "x" (String (hex_char (code c / 16)) (String (hex_char (code c mod 16)) ""))).

(** [str.isprintable] on one code point below 256: the C0 and C1 controls,
    DEL, the no-break space and the soft hyphen are not printable. *)
Definition isprintable (c : ascii) : bool :=
  let n := code c in
  ((32 <=? n) && (n <? 127) || (161 <=? n) && negb (n =? 173))%N.

Fixpoint contains (c : ascii) (s : string) : bool :=
  match s with
  | EmptyString => false
  | String a s' => Ascii.eqb a c || contains c s'
  end.

(** [repr] prefers single quotes; it switches to double quotes when the
    text has a single quote and no double quote. *)
Definition repr_quote (s : string) : ascii :=
  if contains squote s && negb (contains dquote s) then dquote else squote.

Definition escape_char (q c : ascii) : string :=
  if Ascii.eqb c q || Ascii.eqb c backslash then String backslash (String c "")
  else if (code c =? 9)%N then String backslash "t"
  else if (code c =? 10)%N then String backslash "n"
  else if (code c =? 13)%N then String backslash "r"
  else if isprintable c then String c ""
  else hex_escape c.

Fixpoint escape (q : ascii) (s : string) : string :=
  match s with
  | EmptyString => ""
  | String c s' => escape_char q c +:+ escape q s'
  end.

Definition repr_str (s : string) : string :=
  let q := repr_quote s in
  String q (escape q s +:+ String q "").

Fixpoint join (sep : string) (l : list string) : string :=
  match l with
  | [] => ""
  | [x] => x
  | x :: l' => x +:+ sep +:+ join sep l'
  end.

Fixpoint repr (v : value) : string :=
  match v with
  | VNone => "None"
  | VBool b => if b then "True" else "False"
  | VInt n => pretty n
  | VStr s => repr_str s
  | VList l => "[" +:+ join ", " (map repr l) +:+ "]"
  end.

(** [str(x)]: the text itself for a string, [repr] otherwise. *)
Definition str (v : value) : string :=
  match v with
  | VStr s => s
  | _ => repr v
  end.

(** [s.encode()]: UTF-8; a code point below 128 is one byte, one from
    128 to 255 is two bytes. *)
Definition encode_char (c : ascii) : list Z :=
  let n := Z.of_N (code c) in
  if n <? 128 then [n]
  else [Z.lor 0xC0 (Z.shiftr n 6); Z.lor 0x80 (Z.land n 0x3F)].

Fixpoint encode (s : string) : list Z :=
  match s with
  | EmptyString => []
  | String c s' => encode_char c ++ encode s'
  end.

(** [str.isspace] on one code point below 256. *)
Definition isspace (c : ascii) : bool :=
  let n := code c in
  ((9 <=? n) && (n <=? 13) || (28 <=? n) && (n <=? 32)
   || (n =? 133) || (n =? 160))%N.

Fixpoint lstrip (s : string) : string :=
  match s with
  | EmptyString => ""
  | String c s' => if isspace c then lstrip s' else s
  end.

Fixpoint rstrip (s : string) : string :=
  match s with
  | EmptyString => ""
  | String c s' =>
      match rstrip s' with
      | EmptyString => if isspace c then "" else String c ""
      | r => String c r
      end
  end.

(** [str.strip()]. *)
Definition strip (s : string) : string := rstrip (lstrip s).

End Py.
Import Py.

(** The digest the spider stores:
    [md5(str(fields).encode()).hexdigest()] for a list [fields]. *)
Definition fields_digest (fields : list value) : string :=
  MD5.hexdigest (encode (str (VList fields))).

(** ** parsel: selectors and selector lists *)
Module Parsel.

(** A selected node: its serialised text ([.get()]), its attributes
    ([.attrib]) and the answer of the underlying document to every
    structural query made relative to it. *)
Inductive Selector := Sel {
  sel_data : string;
  sel_attrib : gmap string string;
  sel_query : string -> list Selector
}.

(** An attribute or text node: no attributes, nothing below it. *)
Definition leaf (text : string) : Selector := Sel text ∅ (fun _ => []).

(** [selector.xpath(query)]. The step [@name] from an element selects
    its attribute of that name; any other query is answered by the
    document. *)
Definition xpath1 (s : Selector) (query : string) : list Selector :=
  match query with
  | String "@" name =>
      match sel_attrib s !! name with
      | Some v => [leaf v]
      | None => []
      end
  | _ => sel_query s query
  end.

(** [SelectorList.xpath]: the results for each element, flattened. *)
Definition xpath (sl : list Selector) (query : string) : list Selector :=
  flat_map (fun s => xpath1 s query) sl.

(** [SelectorList.get()]: the first result, or [None]. *)
Definition get (sl : list Selector) : option string :=
  match sl with
  | [] => None
  | s :: _ => Some (sel_data s)
  end.

(** On the result of [get()]: [x == s] and [not x]. *)
Definition is_str (x : option string) (s : string) : bool :=
  match x with
  | Some s' => String.eqb s' s
  | None => false
  end.

Definition is_falsy (x : option string) : bool :=
  match x with
  | Some s' => String.eqb s' ""
  | None => true
  end.

Definition getall (sl : list Selector) : list string := map sel_data sl.

(** [SelectorList.attrib]: the attributes of the first element, or an
    empty dict. *)
Definition attrib (sl : list Selector) : gmap string string :=
  match sl with
  | [] => ∅
  | s :: _ => sel_attrib s
  end.

(** A response wraps the root selector of the page. [resp_follows] says
    for which urls [response.follow] builds a request: it joins the url
    with that of the response and raises [ValueError] when no request can
    be made for the result, as for a link like "mailto:a@b.c". *)
Record Response := {
  resp_url : string;
  resp_selector : Selector;
  resp_follows : string -> bool
}.

Definition response_xpath (r : Response) (query : string) : list Selector :=
  xpath1 (resp_selector r) query.

End Parsel.
Import Parsel.

(** ** Scrapy: items, requests, the generator monad, item loaders *)
Module Scrapy.

(** The item classes of [soccer_stats.items]. *)
Inductive item_class := League | Match | PostMatchStatistics.

(** The fields set on an item ([Item._values]). *)
Abbreviation item := (gmap string value).

(** The spider's callbacks. *)
Inductive callback :=
| parse_leagues_cb | parse_league_cb | parse_season_cb
| parse_matches_cb | parse_match_cb.

Inductive request_kind :=
| PlainRequest                                      (* scrapy.Request *)
| FollowLink                                        (* response.follow *)
| FormPost (method : string) (formdata : list (string * string))
| SplashRender (args : list (string * value)).      (* SplashRequest *)

Record request := Request {
  rq_kind : request_kind;
  rq_url : string;
  rq_callback : callback;
  rq_cb_kwargs : gmap string value
}.

(** What the callbacks raise: [KeyError] from a dict or an item, and the
    [ValueError] of [response.follow]. *)
Inductive exn :=
| KeyError (key : string)
| ValueError.

(** What a callback yields. An item is yielded by reference: the event
    records the object and the fields it has at that moment. *)
Inductive event :=
| YItem (obj : nat) (cls : item_class) (snapshot : item)
| YRequest (rq : request).

(** Objects live in a store, addressed by position. *)
Record gen_state := GenState {
  st_heap : list (item_class * item);
  st_out : list event
}.

Definition M (A : Type) : Type := gen_state -> gen_state * (exn + A).

Definition ret {A} (a : A) : M A := fun st => (st, inr a).

Definition bind {A B} (m : M A) (f : A -> M B) : M B :=
  fun st =>
    match m st with
    | (st', inr a) => f a st'
    | (st', inl e) => (st', inl e)
    end.

Definition raise {A} (e : exn) : M A := fun st => (st, inl e).

(** [cls()]: a new item with no field set. *)
Definition new_item (cls : item_class) : M nat :=
  fun st =>
    (GenState (st_heap st ++ [(cls, ∅)]) (st_out st), inr (length (st_heap st))).

(** [item[key]]: [KeyError] when the field is not set. *)
Definition getitem (obj : nat) (key : string) : M value :=
  fun st =>
    match st_heap st !! obj with
    | Some (_, it) =>
        match it !! key with
        | Some v => (st, inr v)
        | None => (st, inl (KeyError key))
        end
    | None => (st, inl (KeyError key))
    end.

(** Assigns every field of [fields] on the stored object, as the loop of
    [load_item] does; other fields stay. *)
Definition update_item (obj : nat) (fields : item) : M unit :=
  fun st =>
    match st_heap st !! obj with
    | Some (cls, it) =>
        (GenState (<[obj := (cls, fields ∪ it)]> (st_heap st)) (st_out st), inr tt)
    | None => (st, inr tt)
    end.

(** [item[key] = v], for a field the item class declares. *)
Definition setitem (obj : nat) (key : string) (v : value) : M unit :=
  fun st =>
    match st_heap st !! obj with
    | Some (cls, it) =>
        (GenState (<[obj := (cls, <[key := v]> it)]> (st_heap st)) (st_out st), inr tt)
    | None => (st, inr tt)
    end.

Definition yield_item (obj : nat) : M unit :=
  fun st =>
    match st_heap st !! obj with
    | Some (cls, it) =>
        (GenState (st_heap st) (st_out st ++ [YItem obj cls it]), inr tt)
    | None => (st, inr tt)
    end.

Definition yield_request (rq : request) : M unit :=
  fun st => (GenState (st_heap st) (st_out st ++ [YRequest rq]), inr tt).

(** [response.follow(url, callback, cb_kwargs)]: the request for the link,
    or [ValueError]. *)
Definition follow (response : Response) (url : string) (cb : callback)
    (cb_kwargs : gmap string value) : M request :=
  if resp_follows response url then ret (Request FollowLink url cb cb_kwargs)
  else raise ValueError.

(** [d[key]] on a dict of strings. *)
Definition dict_getitem (d : gmap string string) (key : string) : M string :=
  match d !! key with
  | Some v => ret v
  | None => raise (KeyError key)
  end.

(** [kwargs.get(key)]. *)
Definition dict_get (d : gmap string value) (key : string) : value :=
  default VNone (d !! key).

Fixpoint for_each {A} (l : list A) (body : A -> M unit) : M unit :=
  match l with
  | [] => ret tt
  | x :: l' => bind (body x) (fun _ => for_each l' body)
  end.

Definition init_state : gen_state := GenState [] [].

(** Running a callback to exhaustion: what it yielded, the objects it
    leaves behind, and whether it returned or raised. *)
Definition run {A} (m : M A) : gen_state * (exn + A) := m init_state.
Definition yielded {A} (m : M A) : list event := st_out (fst (run m)).
Definition outcome {A} (m : M A) : exn + A := snd (run m).
Definition final_heap {A} (m : M A) : list (item_class * item) :=
  st_heap (fst (run m)).

(** The declarations of [soccer_stats.items]: for every field of every
    item class, its input and output processor. *)
Record Schema := {
  input_processor : item_class -> string -> list value -> value;
  output_processor : item_class -> string -> list value -> value
}.

(** [arg_to_iter]: [None] is no value, a list is its elements, anything
    else is one value. *)
Definition arg_to_iter (v : value) : list value :=
  match v with
  | VNone => []
  | VList l => l
  | _ => [v]
  end.

(** An [ItemLoader]: the class and object of its item, the response it
    reads, and the values collected so far per field ([_values]). *)
Record ItemLoader := Loader {
  ld_class : item_class;
  ld_item : nat;
  ld_response : Response;
  ld_values : gmap string (list value)
}.

Section Loader.
Variable sch : Schema.

(** [ItemLoader._add_value]: the input processor runs on the values;
    a falsy result collects nothing. *)
Definition _add_value (ld : ItemLoader) (field : string) (v : value) : ItemLoader :=
  let processed := input_processor sch (ld_class ld) field (arg_to_iter v) in
  if truthy processed then
    Loader (ld_class ld) (ld_item ld) (ld_response ld)
      (<[field := (default [] (ld_values ld !! field) ++ arg_to_iter processed)%list]>
         (ld_values ld))
  else ld.

(** [ItemLoader.add_value]: [None] is ignored. *)
Definition add_value (ld : ItemLoader) (field : string) (v : value) : ItemLoader :=
  if is_none v then ld else _add_value ld field v.

(** [ItemLoader.get_xpath] without processors: the texts selected. *)
Definition get_xpath (r : Response) (query : string) : list value :=
  map VStr (getall (response_xpath r query)).

Definition add_xpath (ld : ItemLoader) (field query : string) : ItemLoader :=
  add_value ld field (VList (get_xpath (ld_response ld) query)).

(** What [load_item] assigns: the output processor's result for every
    field that collected values, unless that result is [None]. *)
Definition output_fields (ld : ItemLoader) : item :=
  map_imap (fun field vs =>
              let v := output_processor sch (ld_class ld) field vs in
              if is_none v then None else Some v)
           (ld_values ld).

(** [ItemLoader.load_item]: writes into the loader's item and returns
    that same object. *)
Definition load_item (ld : ItemLoader) : M nat :=
  bind (update_item (ld_item ld) (output_fields ld)) (fun _ => ret (ld_item ld)).

End Loader.

End Scrapy.
Import Scrapy.

Declare Scope gen_scope.
Delimit Scope gen_scope with gen.
Notation "x <- m ;; k" := (bind m (fun x => k))
  (at level 100, m at next level, right associativity) : gen_scope.
Notation "m ;;; k" := (bind m (fun _ => k))
  (at level 100, right associativity) : gen_scope.

(** ** The spider: [FootyStatsSpider] *)
Module Spider.

Definition base_url : string := "https://footystats.org".

(** [make_url]: base url, a slash, the relative path. *)
Definition make_url (path : string) : string := base_url +:+ "/" +:+ path.

(** A double-quoted XPath string literal. *)
Definition q (s : string) : string := String dquote (s +:+ String dquote "").

Section Callbacks.
Variable sch : Schema.
Local Open Scope gen_scope.

Definition start_requests : M unit :=
  yield_request (Request PlainRequest (make_url "/leagues/") parse_leagues_cb ∅).

Definition countries_xpath : string := "//div[@class=" +:+ q "pt2e" +:+ "]".
Definition leagues_urls_xpath : string := "div/table/tr/td/a/@href".

Definition parse_leagues (response : Response) : M unit :=
  let country_selectors := response_xpath response countries_xpath in
  for_each country_selectors (fun selector =>
    country <- dict_getitem (sel_attrib selector) "id" ;;  (* country name *)
    let leagues_urls := getall (xpath1 selector leagues_urls_xpath) in
    for_each leagues_urls (fun url =>
      rq <- follow response url parse_league_cb {[ "country" := VStr country ]} ;;
      yield_request rq)).

Definition parse_league (response : Response) (kwargs : gmap string value) : M unit :=
  let seasons := response_xpath response
    ("//div[@class=" +:+ q "detail season" +:+ "]/"
     +:+ "div[contains(@class, " +:+ q "drop-down-parent" +:+ ")]/ul/li/a") in
  for_each seasons (fun season =>
    h <- dict_getitem (sel_attrib season) "data-hash" ;;
    z3 <- dict_getitem (sel_attrib season) "data-zzz" ;;
    z4 <- dict_getitem (sel_attrib season) "data-zzzz" ;;
    cur <- dict_getitem (sel_attrib season) "data-z" ;;
    let params := [("hash", h); ("zzz", z3); ("zzzz", z4); ("cur", cur)] in
    yield_request
      (Request (FormPost "POST" params) (make_url "ajax_league.php")
               parse_season_cb {[ "country" := dict_get kwargs "country" ]})).

Definition league_details (cls label what : string) : string :=
  "//div[@class=" +:+ q "league-details" +:+ "]/div[@class=" +:+ q cls +:+ "]"
  +:+ "/div[contains(., " +:+ q label +:+ ")]/following-sibling::div/" +:+ what.

Definition title_xpath : string :=
  "//div[@id=" +:+ q "teamSummary" +:+ "]/h1[contains(@class, "
  +:+ q "teamName" +:+ ")]/text()".

Definition season_xpath : string :=
  league_details "detail season" "Season" "text()".

(** The loader of [parse_season] after all its [add_value] and
    [add_xpath] calls. *)
Definition season_loader (league : nat) (response : Response)
    (kwargs : gmap string value) : ItemLoader :=
  let loader := Loader League league response ∅ in
  let loader := add_value sch loader "country" (dict_get kwargs "country") in
  let loader := add_xpath sch loader "title" title_xpath in
  let loader := add_xpath sch loader "nation" (league_details "detail" "Nation" "a/text()") in
  let loader := add_xpath sch loader "division" (league_details "detail" "Division" "text()") in
  let loader := add_xpath sch loader "league_type" (league_details "detail" "Type" "text()") in
  let loader := add_xpath sch loader "teams_count" (league_details "detail" "Teams" "text()") in
  let loader := add_xpath sch loader "season" season_xpath in
  let loader := add_xpath sch loader "all_matches_count"
    (league_details "detail season" "Matches" "text()") in
  add_xpath sch loader "image_url" ("//div[@id=" +:+ q "teamSummary" +:+ "]/img/@src").

Definition matches_link : string :=
  "//div[@id=" +:+ q "teamSummary" +:+ "]/ul[contains(@class, " +:+ q "secondary-nav" +:+ ")]/"
  +:+ "li[contains(@class, " +:+ q "middle" +:+ ")]/a".

Definition parse_season (response : Response) (kwargs : gmap string value) : M unit :=
  item <- new_item League ;;
  league <- load_item sch (season_loader item response kwargs) ;;
  title <- getitem league "title" ;;
  season <- getitem league "season" ;;
  setitem league "hash" (VStr (fields_digest [title; season])) ;;;
  yield_item league ;;;
  let matches := response_xpath response matches_link in
  let href := get (xpath matches "@href") in
  if is_str href "#" then
    h <- dict_getitem (attrib matches) "data-hash" ;;
    z3 <- dict_getitem (attrib matches) "data-zzz" ;;
    cur <- dict_getitem (attrib matches) "data-z" ;;
    let params := [("hash", h); ("zzz", z3); ("cur", cur)] in
    league_hash <- getitem league "hash" ;;
    yield_request
      (Request (FormPost "POST" params) (make_url "ajax_league.php")
               parse_matches_cb {[ "league_hash" := league_hash ]})
  else if is_falsy href then
    (* matches for this league available for premium account *)
    setitem league "blocked" (VBool true) ;;;
    yield_item league
  else
    league_hash <- getitem league "hash" ;;
    rq <- follow response (default "" href) parse_matches_cb
            {[ "league_hash" := league_hash ]} ;;
    yield_request rq.

Definition match_urls_xpath : string :=
  "//table[contains(@class, " +:+ q "matches-table" +:+ ")]/tr/"
  +:+ "td[contains(@class, " +:+ q "link" +:+ ")]/a/@href".

Definition parse_matches (response : Response) (kwargs : gmap string value) : M unit :=
  let matches := getall (response_xpath response match_urls_xpath) in
  for_each matches (fun match_ =>
    yield_request
      (Request (SplashRender [("wait", VInt 2)]) (make_url match_)
               parse_match_cb {[ "league_hash" := dict_get kwargs "league_hash" ]})).

Definition timestamp_xpath : string := "//p[@data-time]/@data-time".

Definition home_team_xpath : string :=
  "//span[@itemprop=" +:+ q "homeTeam" +:+ "]/span[@itemprop=" +:+ q "name" +:+ "]/@content".

Definition away_team_xpath : string :=
  "//span[@itemprop=" +:+ q "awayTeam" +:+ "]/span[@itemprop=" +:+ q "name" +:+ "]/@content".

Definition home_result_xpath : string :=
  "//div[contains(@class, " +:+ q "h2h-final-score" +:+ ")]/"
  +:+ "div[@class=" +:+ q "widget-content" +:+ "]/h2/text()".

Definition away_result_xpath : string :=
  "//div[contains(@class, " +:+ q "h2h-final-score" +:+ ")]/"
  +:+ "div[@class=" +:+ q "widget-content" +:+ "]/h2/text()".

(** The loader of [parse_match] before its last two [add_xpath] calls,
    and after them. *)
Definition match_loader_teams (match_ : nat) (response : Response)
    (kwargs : gmap string value) : ItemLoader :=
  let match_loader := Loader Match match_ response ∅ in
  let match_loader := add_value sch match_loader "league_hash" (dict_get kwargs "league_hash") in
  let match_loader := add_xpath sch match_loader "timestamp" timestamp_xpath in
  let match_loader := add_xpath sch match_loader "home_team" home_team_xpath in
  let match_loader := add_xpath sch match_loader "away_team" away_team_xpath in
  add_xpath sch match_loader "stadium" ("//small/span[@itemprop=" +:+ q "name" +:+ "]/text()").

Definition match_loader (match_ : nat) (response : Response)
    (kwargs : gmap string value) : ItemLoader :=
  let match_loader := match_loader_teams match_ response kwargs in
  let match_loader := add_xpath sch match_loader "home_result" home_result_xpath in
  add_xpath sch match_loader "away_result" away_result_xpath.

Definition statistics_panel : string := "//div[@class=" +:+ q "w100 cf ac" +:+ "]".

Definition statistics_row (label : string) : string :=
  "//div[@class=" +:+ q "w100 m0Auto" +:+ "]/div/div[contains(text(), " +:+ q label +:+ ")]"
  +:+ "/following-sibling::div[contains(@class, " +:+ q "bbox" +:+ ")]/span/text()".

Definition statistics_loader (stats : nat) (response : Response)
    (match_hash : value) : ItemLoader :=
  let statistics_loader := Loader PostMatchStatistics stats response ∅ in
  let statistics_loader := add_value sch statistics_loader "match_hash" match_hash in
  let statistics_loader := add_xpath sch statistics_loader "possession"
    ("//span[contains(@class, " +:+ q "possession" +:+ ")]/text()") in
  let statistics_loader := add_xpath sch statistics_loader "shots" (statistics_row "Shots") in
  let statistics_loader := add_xpath sch statistics_loader "cards" (statistics_row "Cards") in
  let statistics_loader := add_xpath sch statistics_loader "corners" (statistics_row "Corners") in
  let statistics_loader := add_xpath sch statistics_loader "fouls" (statistics_row "Fouls") in
  add_xpath sch statistics_loader "offsides" (statistics_row "Offsides").

Definition parse_match (response : Response) (kwargs : gmap string value) : M unit :=
  item <- new_item Match ;;
  match_ <- load_item sch (match_loader item response kwargs) ;;
  league_hash <- getitem match_ "league_hash" ;;
  timestamp <- getitem match_ "timestamp" ;;
  home_team <- getitem match_ "home_team" ;;
  away_team <- getitem match_ "away_team" ;;
  let fields := [league_hash; timestamp; home_team; away_team] in
  setitem match_ "hash" (VStr (fields_digest fields)) ;;;
  yield_item match_ ;;;
  match response_xpath response statistics_panel with
  | _ :: _ =>
      (* if post match statistics data exists *)
      stats <- new_item PostMatchStatistics ;;
      match_hash <- getitem match_ "hash" ;;
      statistics <- load_item sch (statistics_loader stats response match_hash) ;;
      yield_item statistics
  | [] => ret tt
  end.

(** Scrapy calls a request's callback on the response fetched for it,
    with the request's [cb_kwargs] as keyword arguments. *)
Definition dispatch (cb : callback) : Response -> gmap string value -> M unit :=
  match cb with
  | parse_leagues_cb => fun response _ => parse_leagues response
  | parse_league_cb => parse_league
  | parse_season_cb => parse_season
  | parse_matches_cb => parse_matches
  | parse_match_cb => parse_match
  end.

Definition handle (rq : request) (response : Response) : M unit :=
  dispatch (rq_callback rq) response (rq_cb_kwargs rq).

End Callbacks.

End Spider.
Import Spider.

(** ** The item declarations and some pages *)

(** [TakeFirst]: the first value that is neither [None] nor the empty
    string; [None] when there is none. *)
Fixpoint take_first (vs : list value) : value :=
  match vs with
  | [] => VNone
  | VNone :: vs' => take_first vs'
  | VStr "" :: vs' => take_first vs'
  | v :: _ => v
  end.

(** [MapCompose(str.strip)] on the texts a query returns. *)
Definition map_strip (vs : list value) : value :=
  VList (map (fun v => match v with VStr s => VStr (strip s) | _ => v end) vs).

(** Modelled from the spec: [soccer_stats/items.py] is not among the
    sources. The spec says that the item declarations normalise each field
    by trimming whitespace and taking the first of many values. *)
Definition spec_schema : Schema :=
  {| input_processor := fun _ _ vs => map_strip vs;
     output_processor := fun _ _ vs => take_first vs |}.

(** Plain [Field()] declarations: Scrapy's default processors are the
    identity, so a field holds the list of collected values. *)
Definition default_schema : Schema :=
  {| input_processor := fun _ _ vs => VList vs;
     output_processor := fun _ _ vs => VList vs |}.

Fixpoint assoc (answers : list (string * list Selector)) (query : string)
    : list Selector :=
  match answers with
  | [] => []
  | (k, sl) :: rest => if String.eqb k query then sl else assoc rest query
  end.

(** An element with the given attributes whose relative queries are
    answered from a table. *)
Definition element (attrs : list (string * string))
    (answers : list (string * list Selector)) : Selector :=
  Sel "" (list_to_map attrs) (assoc answers).

(** A page whose queries are answered from a table, and on which [follow]
    raises for the links listed in [refused]. *)
Definition page_refusing (refused : list string)
    (answers : list (string * list Selector)) : Response :=
  {| resp_url := base_url;
     resp_selector := element [] answers;
     resp_follows := fun url => negb (existsb (String.eqb url) refused) |}.

(** A page on which every link that is there can be followed. *)
Definition page (answers : list (string * list Selector)) : Response :=
  page_refusing [] answers.

(** A season page with title and season, and the given matches link. *)
Definition season_page (title season : string) (links : list Selector) : Response :=
  page [ (title_xpath, [leaf title]); (season_xpath, [leaf season]);
         (matches_link, links) ].

Definition a_link (attrs : list (string * string)) : Selector := element attrs [].

Definition ajax_link : Selector :=
  a_link [("href", "#"); ("data-hash", "h1"); ("data-zzz", "t2"); ("data-z", "c3")].

(** The link of a league whose matches are behind the paywall: no href. *)
Definition blocked_page : Response :=
  season_page "Premier League" "2020/2021" [a_link [("class", "locked")]].

Definition ajax_page : Response :=
  season_page "Premier League" "2020/2021" [ajax_link].

Definition direct_page : Response :=
  season_page "Premier League" "2020/2021" [a_link [("href", "/england/premier-league/fixtures")]].

(** A season page with the AJAX matches link whose title heading is
    not found. *)
Definition untitled_ajax_page : Response :=
  page [ (season_xpath, [leaf "2020/2021"]); (matches_link, [ajax_link]) ].

(** A match page; [panel] is what the statistics-panel query selects. *)
Definition match_page (timestamp : list Selector) (panel : list Selector) : Response :=
  page [ (timestamp_xpath, timestamp);
         (home_team_xpath, [leaf "Arsenal"]); (away_team_xpath, [leaf "Chelsea"]);
         (home_result_xpath, [leaf "2 - 1"]);
         (statistics_panel, panel);
         (statistics_row "Shots", [leaf "12"; leaf "7"]) ].

Definition league_kwargs : gmap string value :=
  {[ "league_hash" := VStr "e4415541524ca67337fadfa0f3adf9bd" ]}.

(** A leagues index with two countries of three leagues each. *)
Definition country_group (name : string) (urls : list string) : Selector :=
  element [("id", name); ("class", "pt2e")] [ (leagues_urls_xpath, map leaf urls) ].

Definition leagues_page : Response :=
  page [ (countries_xpath,
          [ country_group "england" ["/england/premier-league"; "/england/championship";
                                     "/england/fa-cup"];
            country_group "spain" ["/spain/la-liga"; "/spain/segunda"; "/spain/copa"] ]) ].

(** A leagues index of the same shape whose second link is a mail
    address. Joined with the url of the page it stays as it is, a url
    without a host, and [follow] raises. *)
Definition mail_link_page : Response :=
  page_refusing ["mailto:a@b.c"]
    [ (countries_xpath,
       [ country_group "england" ["/england/premier-league"; "mailto:a@b.c";
                                  "/england/fa-cup"];
         country_group "spain" ["/spain/la-liga"; "/spain/segunda"; "/spain/copa"] ]) ].

(** A season page whose matches link runs a script. *)
Definition script_link_page : Response :=
  page_refusing ["javascript:void(0)"]
    [ (title_xpath, [leaf "Premier League"]); (season_xpath, [leaf "2020/2021"]);
      (matches_link, [a_link [("href", "javascript:void(0)")]]) ].

Definition matches_page : Response :=
  page [ (match_urls_xpath, [leaf "england/arsenal-vs-chelsea"; leaf "england/leeds-vs-everton"]) ].

Definition bytes_of_ascii_string (s : string) : list Z :=
  map (fun c => Z.of_nat (nat_of_ascii c)) (list_ascii_of_string s).

(** ** What is observed of a run *)

Definition item_class_eqb (c1 c2 : item_class) : bool :=
  match c1, c2 with
  | League, League | Match, Match | PostMatchStatistics, PostMatchStatistics => true
  | _, _ => false
  end.

(** The items of class [cls] a callback yielded, each as it was when
    yielded, and the requests it yielded. *)
Fixpoint items_of (cls : item_class) (evs : list event) : list (gmap string value) :=
  match evs with
  | [] => []
  | YItem _ c snapshot :: evs' =>
      if item_class_eqb c cls then snapshot :: items_of cls evs' else items_of cls evs'
  | YRequest _ :: evs' => items_of cls evs'
  end.

Fixpoint requests_of (evs : list event) : list request :=
  match evs with
  | [] => []
  | YItem _ _ _ :: evs' => requests_of evs'
  | YRequest rq :: evs' => rq :: requests_of evs'
  end.

(** The fields of the League item right after [load_item] in
    [parse_season], and of the Match item in [parse_match]. *)
Definition league_fields (sch : Schema) (r : Response) (kw : gmap string value)
    : gmap string value :=
  output_fields sch (season_loader sch 0 r kw) ∪ ∅.

Definition match_fields (sch : Schema) (r : Response) (kw : gmap string value)
    : gmap string value :=
  output_fields sch (match_loader sch 0 r kw) ∪ ∅.

Definition statistics_fields (sch : Schema) (r : Response) (match_hash : value)
    : gmap string value :=
  output_fields sch (statistics_loader sch 1 r match_hash) ∪ ∅.

(** The processors declared for field [f] of class [cls] store a single
    added value [v] unchanged, as take-first processors do. *)
Definition stores_as_is (sch : Schema) (cls : item_class) (f : string) (v : value) : Prop :=
  truthy (input_processor sch cls f [v]) = true /\
  output_processor sch cls f (arg_to_iter (input_processor sch cls f [v])) = v.

Definition is_hex_char (c : ascii) : bool := contains c "0123456789abcdef".

Fixpoint all_hex (s : string) : bool :=
  match s with
  | EmptyString => true
  | String c s' => is_hex_char c && all_hex s'
  end.

(** A hex-encoded 128-bit digest: 32 hexadecimal digits. *)
Definition is_hexdigest (s : string) : Prop :=
  String.length s = 32%nat /\ all_hex s = true.

(** ** Stepping through a callback *)

(** Unfolds the monad and the store operations, keeping lookups and
    inserts on items as they are written. *)
Ltac gen_cbv :=
  cbv beta iota zeta delta [bind ret raise new_item load_item update_item setitem getitem
    yield_item yield_request follow dict_getitem init_state st_heap st_out length app
    lookup list_lookup insert list_insert fst snd];
  repeat match goal with
    | |- context [gmap_lookup ?k ?m] => change (gmap_lookup k m) with (m !! k)
    | |- context [map_insert ?k ?v ?m] => change (map_insert k v m) with (<[k:=v]> m)
    end.

Ltac gen_step :=
  first
    [ rewrite lookup_insert_eq
    | match goal with
      | |- context [match ?m !! ?k with _ => _ end] => destruct (m !! k) eqn:?
      | |- context [if ?b then _ else _] => destruct b eqn:?
      end ];
  gen_cbv.

(** ** Sample records and requests *)

Definition sample_league : gmap string value :=
  list_to_map [ ("title", VStr "Premier League"); ("season", VStr "2020/2021");
                ("hash", VStr "e4415541524ca67337fadfa0f3adf9bd") ].

Definition sample_match : gmap string value :=
  list_to_map [ ("league_hash", VStr "e4415541524ca67337fadfa0f3adf9bd");
                ("timestamp", VStr "1600000000");
                ("home_team", VStr "Arsenal"); ("away_team", VStr "Chelsea");
                ("home_result", VStr "2 - 1"); ("away_result", VStr "2 - 1");
                ("hash", VStr (fields_digest
                   [ VStr "e4415541524ca67337fadfa0f3adf9bd"; VStr "1600000000";
                     VStr "Arsenal"; VStr "Chelsea" ])) ].

Definition sample_statistics : gmap string value :=
  list_to_map [ ("match_hash", VStr (fields_digest
                   [ VStr "e4415541524ca67337fadfa0f3adf9bd"; VStr "1600000000";
                     VStr "Arsenal"; VStr "Chelsea" ]));
                ("shots", VStr "12") ].

(** The request for one league link of a country. *)
Definition follow_league (country url : string) : request :=
  Request FollowLink url parse_league_cb {[ "country" := VStr country ]}.

(** The requests for all league links of one country group. *)
Definition country_requests (selector : Selector) : list request :=
  map (follow_league (default "" (sel_attrib selector !! "id")))
      (getall (xpath1 selector leagues_urls_xpath)).

(** [follow] builds a request for every url of the list, and for every
    league link of a country group. *)
Definition all_followable (r : Response) (urls : list string) : Prop :=
  Forall (fun url => resp_follows r url = true) urls.

Definition links_followable (r : Response) (selector : Selector) : Prop :=
  all_followable r (getall (xpath1 selector leagues_urls_xpath)).

(** The rendering request for one match link. *)
Definition render_match (league_hash : value) (url : string) : request :=
  Request (SplashRender [("wait", VInt 2)]) (make_url url) parse_match_cb
          {[ "league_hash" := league_hash ]}.

Definition sample_form_request : request :=
  Request (FormPost "POST" [("hash", "h1"); ("zzz", "t2"); ("cur", "c3")])
          "https://footystats.org/ajax_league.php" parse_matches_cb
          {[ "league_hash" := VStr "e4415541524ca67337fadfa0f3adf9bd" ]}.

(** ** Reading the digested text back *)

(** The value of a lowercase hexadecimal digit. *)
Definition unhex (c : ascii) : N :=
  let n := code c in
  (if n <? 58 then n - 48 else n - 87)%N.

Definition cons_fst (c : ascii) (o : option (string * string)) : option (string * string) :=
  match o with
  | Some (s, rest) => Some (String c s, rest)
  | None => None
  end.

(** Reads an escaped text up to its closing quote [q]; gives the text and
    what follows the quote. *)
Fixpoint unescape (q : ascii) (s : string) : option (string * string) :=
  match s with
  | EmptyString => None
  | String c s1 =>
      if Ascii.eqb c q then Some (EmptyString, s1)
      else if Ascii.eqb c backslash then
        match s1 with
        | EmptyString => None
        | String d s2 =>
            if Ascii.eqb d "x" then
              match s2 with
              | String h1 (String h2 s3) =>
                  cons_fst (ascii_of_N (16 * unhex h1 + unhex h2)) (unescape q s3)
              | _ => None
              end
            else if Ascii.eqb d "t" then cons_fst (ascii_of_nat 9) (unescape q s2)
            else if Ascii.eqb d "n" then cons_fst (ascii_of_nat 10) (unescape q s2)
            else if Ascii.eqb d "r" then cons_fst (ascii_of_nat 13) (unescape q s2)
            else cons_fst d (unescape q s2)
        end
      else cons_fst c (unescape q s1)
  end.

Definition unrepr (s : string) : option (string * string) :=
  match s with
  | EmptyString => None
  | String q s1 =>
      if Ascii.eqb q squote || Ascii.eqb q dquote then unescape q s1 else None
  end.

Fixpoint strip_prefix (p s : string) : option string :=
  match p, s with
  | EmptyString, _ => Some s
  | String a p1, String b s1 => if Ascii.eqb a b then strip_prefix p1 s1 else None
  | String _ _, EmptyString => None
  end.

(** Reads the string form of a list of two strings back into the two. *)
Definition unstr_pair (s : string) : option (string * string) :=
  match strip_prefix "[" s with
  | Some s1 =>
      match unrepr s1 with
      | Some (a, r1) =>
          match strip_prefix ", " r1 with
          | Some s2 =>
              match unrepr s2 with
              | Some (b, r2) => if String.eqb r2 "]" then Some (a, b) else None
              | None => None
              end
          | None => None
          end
      | None => None
      end
  | None => None
  end.

(** Reads UTF-8 back, for code points below 256. *)
Fixpoint decode (bs : list Z) : string :=
  match bs with
  | [] => ""
  | b :: bs1 =>
      if b <? 128 then String (ascii_of_N (Z.to_N b)) (decode bs1)
      else
        match bs1 with
        | [] => ""
        | b2 :: bs2 =>
            String (ascii_of_N (Z.to_N (Z.land b 0x1F * 64 + Z.land b2 0x3F))) (decode bs2)
        end
  end.

Ltac each_char c :=
  destruct c as [[] [] [] [] [] [] [] []].

(** The hash of the first League record [parse_season] yields. *)
Definition stored_hash (sch : Schema) (r : Response) (kw : gmap string value)
    : option value :=
  match items_of League (yielded (parse_season sch r kw)) with
  | league :: _ => league !! "hash"
  | [] => None
  end.

(** ** Counting texts *)

(** A text of zeros and ones. *)
Fixpoint string_of_bits (bs : list bool) : string :=
  match bs with
  | [] => ""
  | b :: bs' => String (if b then "1" else "0")%char (string_of_bits bs')
  end.

(** The eight bits of a character. *)
Abbreviation octet := (bool * bool * bool * bool * bool * bool * bool * bool)%type.

Definition octet_of_ascii (c : ascii) : octet :=
  let (b0, b1, b2, b3, b4, b5, b6, b7) := c in (b0, b1, b2, b3, b4, b5, b6, b7).

(** ** The other callbacks: what their properties are stated with *)

(** The value of an attribute that is known to be there. *)
Definition attr (s : Selector) (key : string) : string :=
  default "" (sel_attrib s !! key).

(** The query of [parse_league] for the season entries. *)
Definition seasons_xpath : string :=
  "//div[@class=" +:+ q "detail season" +:+ "]/"
  +:+ "div[contains(@class, " +:+ q "drop-down-parent" +:+ ")]/ul/li/a".

(** The attributes [parse_league] reads from a season entry, in the order
    it reads them, and those [parse_season] reads from the matches link. *)
Definition season_attrs : list string :=
  ["data-hash"; "data-zzz"; "data-zzzz"; "data-z"].

Definition matches_attrs : list string := ["data-hash"; "data-zzz"; "data-z"].

(** The first of [keys] that the dict does not have. *)
Definition first_missing (keys : list string) (d : gmap string string) : option string :=
  List.find (fun k => match d !! k with Some _ => false | None => true end) keys.

(** The form request for one season entry. *)
Definition season_request (country : value) (season : Selector) : request :=
  Request (FormPost "POST" [ ("hash", attr season "data-hash");
                             ("zzz", attr season "data-zzz");
                             ("zzzz", attr season "data-zzzz");
                             ("cur", attr season "data-z") ])
          (make_url "ajax_league.php") parse_season_cb {[ "country" := country ]}.

(** The callback that the requests of a callback name. *)
Definition successor (cb : callback) : option callback :=
  match cb with
  | parse_leagues_cb => Some parse_league_cb
  | parse_league_cb => Some parse_season_cb
  | parse_season_cb => Some parse_matches_cb
  | parse_matches_cb => Some parse_match_cb
  | parse_match_cb => None
  end.

(** The fields the spider loads into or assigns on an item of a class. *)
Definition spider_fields (cls : item_class) : list string :=
  match cls with
  | League =>
      [ "country"; "title"; "nation"; "division"; "league_type"; "teams_count";
        "season"; "all_matches_count"; "image_url"; "hash"; "blocked" ]
  | Match =>
      [ "league_hash"; "timestamp"; "home_team"; "away_team"; "stadium";
        "home_result"; "away_result"; "hash" ]
  | PostMatchStatistics =>
      [ "match_hash"; "possession"; "shots"; "cards"; "corners"; "fouls"; "offsides" ]
  end.

(** Every event a computation adds to the output satisfies [P]. *)
Definition yields_only {A} (P : event -> Prop) (m : M A) : Prop :=
  forall st, Forall P (st_out st) -> Forall P (st_out (fst (m st))).

(** One request leads to another when the callback of the first, run on
    some response, yields the second. *)
Inductive leads_to (sch : Schema) : nat -> request -> request -> Prop :=
| leads_here rq : leads_to sch 0 rq rq
| leads_further n rq1 rq2 rq3 response :
    YRequest rq2 ∈ yielded (handle sch rq1 response) ->
    leads_to sch n rq2 rq3 ->
    leads_to sch (S n) rq1 rq3.

(** The position of a callback in the crawl. *)
Definition stage (cb : callback) : nat :=
  match cb with
  | parse_leagues_cb => 0
  | parse_league_cb => 1
  | parse_season_cb => 2
  | parse_matches_cb => 3
  | parse_match_cb => 4
  end.

(** A season entry of a league page. *)
Definition season_entry (h z3 z4 cur : string) : Selector :=
  element [("data-hash", h); ("data-zzz", z3); ("data-zzzz", z4); ("data-z", cur)] [].

Definition league_page : Response :=
  page [ (seasons_xpath,
          [ season_entry "a1" "b1" "c1" "2021"; season_entry "a2" "b2" "c2" "2020" ]) ].

(** A league page whose second season entry has no [data-zzzz]. *)
Definition broken_league_page : Response :=
  page [ (seasons_xpath,
          [ season_entry "a1" "b1" "c1" "2021";
            element [("data-hash", "a2"); ("data-zzz", "b2"); ("data-z", "2020")] [];
            season_entry "a3" "b3" "c3" "2019" ]) ].

(** ** [soccer_stats/mongo.py]: [StatsMongoClient] *)
Module Mongo.
Section Client.

(** pymongo, as far as the class uses it: handles for a connection, a
    database and a collection, the calls that make them, the truth test of
    a collection, and what a call may raise. *)
Variables Connection Database Collection LibraryError : Type.
Variable MongoClient : string -> LibraryError + Connection.
Variable connection_getitem : Connection -> string -> LibraryError + Database.
Variable database_getitem : Database -> string -> LibraryError + Collection.
Variable collection_bool : Collection -> LibraryError + bool.
Variable connection_close : Connection -> LibraryError + unit.

Inductive error :=
| AttributeError (name : string)
| Raised (e : LibraryError).

(** The instance attributes. [__collection] is there only once it was
    assigned. *)
Record StatsMongoClient := {
  __connection : Connection;
  __database : Database;
  __collection : option Collection
}.

Definition __init__ (uri database : string) : error + StatsMongoClient :=
  match MongoClient uri with
  | inl e => inl (Raised e)
  | inr connection =>
      match connection_getitem connection database with
      | inl e => inl (Raised e)
      | inr db => inr {| __connection := connection; __database := db;
                         __collection := None |}
      end
  end.

(** The [collection] property: the collection, or [None]. *)
Definition collection (self : StatsMongoClient) : error + option Collection :=
  match __collection self with
  | None => inl (AttributeError "_StatsMongoClient__collection")
  | Some c =>
      match collection_bool c with
      | inl e => inl (Raised e)
      | inr true => inr (Some c)
      | inr false => inr None
      end
  end.

(** The setter of [collection]. *)
Definition set_collection (self : StatsMongoClient) (name : string)
    : error + StatsMongoClient :=
  match database_getitem (__database self) name with
  | inl e => inl (Raised e)
  | inr c => inr {| __connection := __connection self; __database := __database self;
                    __collection := Some c |}
  end.

Definition db (self : StatsMongoClient) : Database := __database self.

Definition close (self : StatsMongoClient) : error + unit :=
  match connection_close (__connection self) with
  | inl e => inl (Raised e)
  | inr _ => inr tt
  end.

End Client.
End Mongo.

(** A pymongo stand-in for running the class: handles are names, no call
    raises, and a collection is truthy. *)
Definition toy_init (uri database : string)
    : Mongo.error unit + Mongo.StatsMongoClient string string string :=
  Mongo.__init__ string string string unit
    (fun uri => inr uri) (fun _ name => inr name) uri database.

Definition toy_set_collection (self : Mongo.StatsMongoClient string string string)
    (name : string) : Mongo.error unit + Mongo.StatsMongoClient string string string :=
  Mongo.set_collection string string string unit (fun _ name => inr name) self name.

Definition toy_collection (self : Mongo.StatsMongoClient string string string)
    : Mongo.error unit + option string :=
  Mongo.collection string string string unit (fun _ => inr true) self.

(** A country group without an id. *)
Definition nameless_group : Selector :=
  element [("class", "pt2e")] [ (leagues_urls_xpath, [leaf "/spain/la-liga"]) ].

(** A matches link with the data attributes and no href. *)
Definition first_link : Selector :=
  a_link [("data-hash", "f1"); ("data-zzz", "f2"); ("data-z", "f3")].

(** The hash of the first Match record [parse_match] yields. *)
Definition stored_match_hash (sch : Schema) (r : Response) (kw : gmap string value)
    : option value :=
  match items_of Match (yielded (parse_match sch r kw)) with
  | m :: _ => m !! "hash"
  | [] => None
  end.

(** Membership in a list of names written out. *)
Ltac in_list :=
  cbn [spider_fields];
  repeat first [apply list_elem_of_here | apply list_elem_of_further].

(** From a key that some loader collected to its place in the list of
    fields; [Hx] and [Hv] say which keys [add_xpath] and [add_value] add. *)
Ltac loader_keys Hx Hv H :=
  repeat first
    [ apply Hx in H as [-> | H]; [in_list |]
    | apply Hv in H as [-> | H]; [in_list |] ];
  cbn [ld_values] in H; rewrite lookup_empty in H; by destruct H.

(** * Properties *)

(** ** The MD5 model agrees with the RFC 1321 test suite *)

Example md5_empty :
  MD5.hexdigest [] = "d41d8cd98f00b204e9800998ecf8427e".
Proof. vm_compute. reflexivity. Qed.

Example md5_a :
  MD5.hexdigest (bytes_of_ascii_string "a") = "0cc175b9c0f1b6a831c399e269772661".
Proof. vm_compute. reflexivity. Qed.

Example md5_abc :
  MD5.hexdigest (bytes_of_ascii_string "abc") = "900150983cd24fb0d6963f7d28e17f72".
Proof. vm_compute. reflexivity. Qed.

Example md5_message_digest :
  MD5.hexdigest (bytes_of_ascii_string "message digest")
  = "f96b697d7cb7938d525a2f31aaf161d0".
Proof. vm_compute. reflexivity. Qed.

Example md5_two_blocks :
  MD5.hexdigest (bytes_of_ascii_string
    "12345678901234567890123456789012345678901234567890123456789012345678901234567890")
  = "57edf4a22be3c955ac49da2e2107b67a".
Proof. vm_compute. reflexivity. Qed.

Example str_of_fields :
  str (VList [VStr "Premier League"; VStr "2020/2021"])
  = "['Premier League', '2020/2021']".
Proof. vm_compute. reflexivity. Qed.

Example strip_both_ends : strip "  a b " = "a b".
Proof. vm_compute. reflexivity. Qed.

(** ** The shape of a digest *)

Lemma hex_digit_is_hex n : is_hex_char (MD5.hex_digit n) = true.
Proof.
  unfold MD5.hex_digit.
  destruct (nth_in_or_default (Z.to_nat n)
              (list_ascii_of_string "0123456789abcdef") "0"%char) as [Hin | ->];
    [| reflexivity].
  revert Hin.
  generalize (nth (Z.to_nat n) (list_ascii_of_string "0123456789abcdef") "0"%char).
  intros c Hin. cbn in Hin.
  repeat destruct Hin as [<- | Hin]; try reflexivity. destruct Hin.
Qed.

Lemma hex_of_bytes_length bs :
  String.length (MD5.hex_of_bytes bs) = (2 * length bs)%nat.
Proof. induction bs as [| b bs IH]; cbn [MD5.hex_of_bytes String.length length]; lia. Qed.

Lemma hex_of_bytes_all_hex bs : all_hex (MD5.hex_of_bytes bs) = true.
Proof.
  induction bs as [| b bs IH]; [reflexivity |].
  cbn [MD5.hex_of_bytes all_hex]. by rewrite !hex_digit_is_hex, IH.
Qed.

Lemma digest_length msg : length (MD5.digest msg) = 16%nat.
Proof. reflexivity. Qed.

Lemma hexdigest_shape msg : is_hexdigest (MD5.hexdigest msg).
Proof.
  split.
  - unfold MD5.hexdigest. by rewrite hex_of_bytes_length, digest_length.
  - apply hex_of_bytes_all_hex.
Qed.

(** ** Item loaders *)

Section LoaderFacts.
Variable sch : Schema.

Lemma add_value_frame ld f v :
  ld_class (add_value sch ld f v) = ld_class ld /\
  ld_item (add_value sch ld f v) = ld_item ld /\
  ld_response (add_value sch ld f v) = ld_response ld.
Proof.
  unfold add_value, _add_value.
  destruct (is_none v); [done |].
  destruct (truthy _); done.
Qed.

Lemma add_xpath_frame ld f query :
  ld_class (add_xpath sch ld f query) = ld_class ld /\
  ld_item (add_xpath sch ld f query) = ld_item ld /\
  ld_response (add_xpath sch ld f query) = ld_response ld.
Proof. apply add_value_frame. Qed.

(** Adding to one field leaves what was collected for the others. *)
Lemma add_value_other ld f g v :
  f <> g -> ld_values (add_value sch ld g v) !! f = ld_values ld !! f.
Proof.
  intros Hne. unfold add_value, _add_value.
  destruct (is_none v); [done |].
  destruct (truthy _); [| done].
  cbn [ld_values]. by rewrite lookup_insert_ne.
Qed.

Lemma add_xpath_other ld f g query :
  f <> g -> ld_values (add_xpath sch ld g query) !! f = ld_values ld !! f.
Proof. apply add_value_other. Qed.

(** The first values added to a field. *)
Lemma add_value_fresh ld f v :
  ld_values ld !! f = None -> is_none v = false ->
  ld_values (add_value sch ld f v) !! f =
    let processed := input_processor sch (ld_class ld) f (arg_to_iter v) in
    if truthy processed then Some (arg_to_iter processed) else None.
Proof.
  intros Hf Hv. unfold add_value, _add_value. rewrite Hv.
  cbn zeta. destruct (truthy _); [| done].
  cbn [ld_values]. by rewrite lookup_insert_eq, Hf.
Qed.

Lemma output_fields_lookup ld f :
  output_fields sch ld !! f =
    match ld_values ld !! f with
    | Some vs =>
        let v := output_processor sch (ld_class ld) f vs in
        if is_none v then None else Some v
    | None => None
    end.
Proof.
  unfold output_fields. rewrite map_lookup_imap.
  by destruct (ld_values ld !! f).
Qed.

Lemma season_loader_item i r kw : ld_item (season_loader sch i r kw) = i.
Proof.
  unfold season_loader.
  repeat first [ rewrite (proj1 (proj2 (add_xpath_frame _ _ _)))
               | rewrite (proj1 (proj2 (add_value_frame _ _ _))) ].
  reflexivity.
Qed.

Lemma match_loader_item i r kw : ld_item (match_loader sch i r kw) = i.
Proof.
  unfold match_loader, match_loader_teams.
  repeat first [ rewrite (proj1 (proj2 (add_xpath_frame _ _ _)))
               | rewrite (proj1 (proj2 (add_value_frame _ _ _))) ].
  reflexivity.
Qed.

Lemma statistics_loader_item i r h : ld_item (statistics_loader sch i r h) = i.
Proof.
  unfold statistics_loader.
  repeat first [ rewrite (proj1 (proj2 (add_xpath_frame _ _ _)))
               | rewrite (proj1 (proj2 (add_value_frame _ _ _))) ].
  reflexivity.
Qed.

End LoaderFacts.

(** ** Running the callbacks *)

(** [parse_season], branch by branch. *)
Lemma parse_season_run sch r kw :
  let it := league_fields sch r kw in
  let matches := response_xpath r matches_link in
  let href := get (xpath matches "@href") in
  run (parse_season sch r kw) =
  match it !! "title", it !! "season" with
  | None, _ => (GenState [(League, it)] [], inl (KeyError "title"))
  | Some _, None => (GenState [(League, it)] [], inl (KeyError "season"))
  | Some t, Some s =>
      let h := VStr (fields_digest [t; s]) in
      let it' := <["hash" := h]> it in
      if is_str href "#" then
        match attrib matches !! "data-hash", attrib matches !! "data-zzz",
              attrib matches !! "data-z" with
        | Some dh, Some z3, Some cur =>
            (GenState [(League, it')]
               [YItem 0 League it';
                YRequest (Request (FormPost "POST" [("hash", dh); ("zzz", z3); ("cur", cur)])
                            (make_url "ajax_league.php") parse_matches_cb
                            {[ "league_hash" := h ]})],
             inr tt)
        | None, _, _ =>
            (GenState [(League, it')] [YItem 0 League it'], inl (KeyError "data-hash"))
        | Some _, None, _ =>
            (GenState [(League, it')] [YItem 0 League it'], inl (KeyError "data-zzz"))
        | Some _, Some _, None =>
            (GenState [(League, it')] [YItem 0 League it'], inl (KeyError "data-z"))
        end
      else if is_falsy href then
        let it'' := <["blocked" := VBool true]> it' in
        (GenState [(League, it'')] [YItem 0 League it'; YItem 0 League it''], inr tt)
      else if resp_follows r (default "" href) then
        (GenState [(League, it')]
           [YItem 0 League it';
            YRequest (Request FollowLink (default "" href) parse_matches_cb
                        {[ "league_hash" := h ]})],
         inr tt)
      else
        (GenState [(League, it')] [YItem 0 League it'], inl ValueError)
  end.
Proof.
  intros it matches href. unfold run, parse_season.
  fold matches. fold href.
  gen_cbv. rewrite season_loader_item.
  change (output_fields sch (season_loader sch 0 r kw) ∪ ∅) with it.
  gen_cbv. repeat gen_step; reflexivity.
Qed.

(** [parse_match], branch by branch. *)
Lemma parse_match_run sch r kw :
  let it := match_fields sch r kw in
  run (parse_match sch r kw) =
  match it !! "league_hash", it !! "timestamp", it !! "home_team", it !! "away_team" with
  | Some lh, Some ts, Some ht, Some at_ =>
      let h := VStr (fields_digest [lh; ts; ht; at_]) in
      let it' := <["hash" := h]> it in
      match response_xpath r statistics_panel with
      | [] => (GenState [(Match, it')] [YItem 0 Match it'], inr tt)
      | _ :: _ =>
          let stats := statistics_fields sch r h in
          (GenState [(Match, it'); (PostMatchStatistics, stats)]
             [YItem 0 Match it'; YItem 1 PostMatchStatistics stats],
           inr tt)
      end
  | None, _, _, _ => (GenState [(Match, it)] [], inl (KeyError "league_hash"))
  | Some _, None, _, _ => (GenState [(Match, it)] [], inl (KeyError "timestamp"))
  | Some _, Some _, None, _ => (GenState [(Match, it)] [], inl (KeyError "home_team"))
  | Some _, Some _, Some _, None => (GenState [(Match, it)] [], inl (KeyError "away_team"))
  end.
Proof.
  intros it. unfold run, parse_match.
  gen_cbv. rewrite match_loader_item.
  change (output_fields sch (match_loader sch 0 r kw) ∪ ∅) with it.
  gen_cbv.
  destruct (it !! "league_hash") eqn:?; gen_cbv; [| reflexivity].
  destruct (it !! "timestamp") eqn:?; gen_cbv; [| reflexivity].
  destruct (it !! "home_team") eqn:?; gen_cbv; [| reflexivity].
  destruct (it !! "away_team") eqn:?; gen_cbv; [| reflexivity].
  destruct (response_xpath r statistics_panel); gen_cbv; [reflexivity |].
  rewrite lookup_insert_eq. gen_cbv.
  rewrite statistics_loader_item. gen_cbv. reflexivity.
Qed.

(** ** Stored hashes are digests of the stored fields *)

(** C1. Every League record that [parse_season] yields has its [hash] field
    equal to the MD5 hex digest of the string form of the list
    [title, season] taken from that same record: recomputing the digest
    from the two stored fields gives the stored hash, and the hash is 32
    hexadecimal digits. *)
Theorem league_hash_is_digest sch r kw obj cls snapshot :
  YItem obj cls snapshot ∈ yielded (parse_season sch r kw) ->
  cls = League /\
  exists title season,
    snapshot !! "title" = Some title /\
    snapshot !! "season" = Some season /\
    snapshot !! "hash" = Some (VStr (fields_digest [title; season])) /\
    is_hexdigest (fields_digest [title; season]).
Proof.
  unfold yielded. rewrite parse_season_run. cbv zeta.
  destruct (league_fields sch r kw !! "title") as [t |] eqn:Ht;
    [| cbn [fst st_out]; intros H; inversion H].
  destruct (league_fields sch r kw !! "season") as [s |] eqn:Hs;
    [| cbn [fst st_out]; intros H; inversion H].
  assert (Hsnap : forall it,
    it = <["hash" := VStr (fields_digest [t; s])]> (league_fields sch r kw) \/
    it = <["blocked" := VBool true]>
           (<["hash" := VStr (fields_digest [t; s])]> (league_fields sch r kw)) ->
    exists title season,
      it !! "title" = Some title /\ it !! "season" = Some season /\
      it !! "hash" = Some (VStr (fields_digest [title; season])) /\
      is_hexdigest (fields_digest [title; season])).
  { intros it Hit. exists t, s.
    destruct Hit as [-> | ->]; simplify_map_eq;
      repeat split; auto; apply hexdigest_shape. }
  intros Hin.
  assert (Hcases : cls = League /\
    (snapshot = <["hash" := VStr (fields_digest [t; s])]> (league_fields sch r kw) \/
     snapshot = <["blocked" := VBool true]>
           (<["hash" := VStr (fields_digest [t; s])]> (league_fields sch r kw)))).
  { revert Hin.
    repeat match goal with
      | |- context [match ?m !! ?k with _ => _ end] => destruct (m !! k)
      | |- context [if ?b then _ else _] => destruct b
      end;
      cbn [fst st_out]; intros Hin;
      repeat (apply elem_of_cons in Hin as [Hin | Hin];
              [ try discriminate Hin; injection Hin as _ -> ->; auto | ]);
      inversion Hin. }
  destruct Hcases as [-> Hs']. split; [reflexivity | auto].
Qed.

Lemma league_hash_is_digest_witness :
  YItem 0 League sample_league ∈ yielded (parse_season spec_schema ajax_page ∅) /\
  exists title season,
    sample_league !! "title" = Some title /\
    sample_league !! "season" = Some season /\
    sample_league !! "hash" = Some (VStr (fields_digest [title; season])) /\
    is_hexdigest (fields_digest [title; season]).
Proof.
  assert (H : YItem 0 League sample_league
              ∈ yielded (parse_season spec_schema ajax_page ∅))
    by (vm_compute; apply list_elem_of_here).
  split; [exact H |].
  exact (proj2 (league_hash_is_digest spec_schema ajax_page ∅ 0%nat League sample_league H)).
Defined.

(** C2. Every Match record that [parse_match] yields has its [hash] field
    equal to the digest of the list
    [league_hash, timestamp, home_team, away_team] of that same record. *)
Theorem match_hash_is_digest sch r kw obj snapshot :
  YItem obj Match snapshot ∈ yielded (parse_match sch r kw) ->
  exists league_hash timestamp home_team away_team,
    snapshot !! "league_hash" = Some league_hash /\
    snapshot !! "timestamp" = Some timestamp /\
    snapshot !! "home_team" = Some home_team /\
    snapshot !! "away_team" = Some away_team /\
    snapshot !! "hash"
      = Some (VStr (fields_digest [league_hash; timestamp; home_team; away_team])) /\
    is_hexdigest (fields_digest [league_hash; timestamp; home_team; away_team]).
Proof.
  unfold yielded. rewrite parse_match_run. cbv zeta.
  destruct (match_fields sch r kw !! "league_hash") as [lh |] eqn:Hlh;
    [| cbn [fst st_out]; intros H; inversion H].
  destruct (match_fields sch r kw !! "timestamp") as [ts |] eqn:Hts;
    [| cbn [fst st_out]; intros H; inversion H].
  destruct (match_fields sch r kw !! "home_team") as [ht |] eqn:Hht;
    [| cbn [fst st_out]; intros H; inversion H].
  destruct (match_fields sch r kw !! "away_team") as [at_ |] eqn:Hat;
    [| cbn [fst st_out]; intros H; inversion H].
  intros Hin.
  assert (Hsnap : snapshot
            = <["hash" := VStr (fields_digest [lh; ts; ht; at_])]> (match_fields sch r kw)).
  { revert Hin. destruct (response_xpath r statistics_panel); cbn [fst st_out]; intros Hin;
      repeat (apply elem_of_cons in Hin as [Hin | Hin];
              [ try discriminate Hin; injection Hin as _ ->; auto | ]);
      inversion Hin. }
  subst snapshot. exists lh, ts, ht, at_.
  simplify_map_eq. repeat split; auto; apply hexdigest_shape.
Qed.

Lemma match_hash_is_digest_witness :
  YItem 0 Match sample_match
    ∈ yielded (parse_match spec_schema (match_page [leaf "1600000000"] []) league_kwargs) /\
  exists league_hash timestamp home_team away_team,
    sample_match !! "league_hash" = Some league_hash /\
    sample_match !! "timestamp" = Some timestamp /\
    sample_match !! "home_team" = Some home_team /\
    sample_match !! "away_team" = Some away_team /\
    sample_match !! "hash"
      = Some (VStr (fields_digest [league_hash; timestamp; home_team; away_team])) /\
    is_hexdigest (fields_digest [league_hash; timestamp; home_team; away_team]).
Proof.
  assert (H : YItem 0 Match sample_match
      ∈ yielded (parse_match spec_schema (match_page [leaf "1600000000"] []) league_kwargs))
    by (vm_compute; apply list_elem_of_here).
  split; [exact H |].
  exact (match_hash_is_digest spec_schema _ _ 0%nat sample_match H).
Defined.

(** ** The season page: the three branches on the matches link *)

Lemma league_fields_blocked sch r kw : league_fields sch r kw !! "blocked" = None.
Proof.
  unfold league_fields. rewrite (right_id_L ∅ (∪)), output_fields_lookup.
  unfold season_loader.
  rewrite !add_xpath_other, add_value_other by done.
  cbn [ld_values]. by rewrite lookup_empty.
Qed.

(** C3, as stated, fails on a page with title, season and a matches link
    without href: the League record is yielded twice, not once. *)
Lemma blocked_page_counterexample :
  get (xpath (response_xpath blocked_page matches_link) "@href") = None /\
  ~ (exists league,
       items_of League (yielded (parse_season spec_schema blocked_page ∅)) = [league] /\
       league !! "blocked" = Some (VBool true) /\
       requests_of (yielded (parse_season spec_schema blocked_page ∅)) = []).
Proof.
  split; [vm_compute; reflexivity |].
  intros (league & H & _). apply (f_equal length) in H.
  vm_compute in H. discriminate H.
Qed.

(** C3, amended. On a season page whose loaded record has title and season
    and whose matches link has no href, [parse_season] yields the League
    record twice: the same object, first right after its hash is assigned,
    when [blocked] is not set, and again after [blocked] is set to true.
    The object ends with [blocked] true and no request is yielded. *)
Theorem blocked_league_yielded_twice sch r kw title season :
  league_fields sch r kw !! "title" = Some title ->
  league_fields sch r kw !! "season" = Some season ->
  get (xpath (response_xpath r matches_link) "@href") = None ->
  let league := <["hash" := VStr (fields_digest [title; season])]> (league_fields sch r kw) in
  yielded (parse_season sch r kw)
    = [YItem 0 League league; YItem 0 League (<["blocked" := VBool true]> league)] /\
  league !! "blocked" = None /\
  final_heap (parse_season sch r kw) = [(League, <["blocked" := VBool true]> league)] /\
  requests_of (yielded (parse_season sch r kw)) = [] /\
  outcome (parse_season sch r kw) = inr tt.
Proof.
  intros Ht Hs Hhref league.
  unfold yielded, final_heap, outcome. rewrite parse_season_run. cbv zeta.
  rewrite Ht, Hs, Hhref. cbn [is_str is_falsy fst snd st_out st_heap requests_of].
  repeat split. subst league. rewrite lookup_insert_ne by done.
  apply league_fields_blocked.
Qed.

Lemma blocked_league_yielded_twice_witness :
  let league := <["hash" := VStr (fields_digest [VStr "Premier League"; VStr "2020/2021"])]>
                  (league_fields spec_schema blocked_page ∅) in
  league_fields spec_schema blocked_page ∅ !! "title" = Some (VStr "Premier League") /\
  league_fields spec_schema blocked_page ∅ !! "season" = Some (VStr "2020/2021") /\
  get (xpath (response_xpath blocked_page matches_link) "@href") = None /\
  yielded (parse_season spec_schema blocked_page ∅)
    = [YItem 0 League league; YItem 0 League (<["blocked" := VBool true]> league)].
Proof.
  assert (Ht : league_fields spec_schema blocked_page ∅ !! "title"
               = Some (VStr "Premier League")) by (vm_compute; reflexivity).
  assert (Hs : league_fields spec_schema blocked_page ∅ !! "season"
               = Some (VStr "2020/2021")) by (vm_compute; reflexivity).
  assert (Hh : get (xpath (response_xpath blocked_page matches_link) "@href") = None)
    by (vm_compute; reflexivity).
  intros league.
  split; [exact Ht |]. split; [exact Hs |]. split; [exact Hh |].
  exact (proj1 (blocked_league_yielded_twice spec_schema blocked_page ∅ _ _ Ht Hs Hh)).
Defined.

(** C5, as stated, fails on a page whose matches link has href "#" but
    whose title heading is not found: no League record is yielded. *)
Lemma ajax_page_counterexample :
  get (xpath (response_xpath untitled_ajax_page matches_link) "@href") = Some "#" /\
  ~ (exists league,
       items_of League (yielded (parse_season spec_schema untitled_ajax_page ∅)) = [league]).
Proof.
  split; [vm_compute; reflexivity |].
  intros (league & H). apply (f_equal length) in H.
  vm_compute in H. discriminate H.
Qed.

(** C5, amended. On a season page whose loaded record has title and season
    and whose matches link has href "#" and the attributes data-hash,
    data-zzz and data-z, [parse_season] yields exactly the League record,
    with [blocked] not set, and then one POST form request to the AJAX
    endpoint with the form fields hash, zzz and cur taken from those
    attributes; nothing else is yielded. *)
Theorem ajax_link_posts_form sch r kw title season dh z3 cur :
  league_fields sch r kw !! "title" = Some title ->
  league_fields sch r kw !! "season" = Some season ->
  get (xpath (response_xpath r matches_link) "@href") = Some "#" ->
  attrib (response_xpath r matches_link) !! "data-hash" = Some dh ->
  attrib (response_xpath r matches_link) !! "data-zzz" = Some z3 ->
  attrib (response_xpath r matches_link) !! "data-z" = Some cur ->
  let h := VStr (fields_digest [title; season]) in
  let league := <["hash" := h]> (league_fields sch r kw) in
  yielded (parse_season sch r kw)
    = [ YItem 0 League league;
        YRequest (Request (FormPost "POST" [("hash", dh); ("zzz", z3); ("cur", cur)])
                    "https://footystats.org/ajax_league.php" parse_matches_cb
                    {[ "league_hash" := h ]}) ] /\
  league !! "blocked" = None /\
  outcome (parse_season sch r kw) = inr tt.
Proof.
  intros Ht Hs Hhref Hdh Hz3 Hcur h league.
  unfold yielded, outcome. rewrite parse_season_run. cbv zeta.
  rewrite Ht, Hs, Hhref, Hdh, Hz3, Hcur. cbn [is_str String.eqb Ascii.eqb Bool.eqb fst snd st_out].
  repeat split. subst league. rewrite lookup_insert_ne by done.
  apply league_fields_blocked.
Qed.

Lemma ajax_link_posts_form_witness :
  let h := VStr (fields_digest [VStr "Premier League"; VStr "2020/2021"]) in
  league_fields spec_schema ajax_page ∅ !! "title" = Some (VStr "Premier League") /\
  league_fields spec_schema ajax_page ∅ !! "season" = Some (VStr "2020/2021") /\
  get (xpath (response_xpath ajax_page matches_link) "@href") = Some "#" /\
  yielded (parse_season spec_schema ajax_page ∅)
    = [ YItem 0 League (<["hash" := h]> (league_fields spec_schema ajax_page ∅));
        YRequest (Request (FormPost "POST" [("hash", "h1"); ("zzz", "t2"); ("cur", "c3")])
                    "https://footystats.org/ajax_league.php" parse_matches_cb
                    {[ "league_hash" := h ]}) ].
Proof.
  assert (Ht : league_fields spec_schema ajax_page ∅ !! "title"
               = Some (VStr "Premier League")) by (vm_compute; reflexivity).
  assert (Hs : league_fields spec_schema ajax_page ∅ !! "season"
               = Some (VStr "2020/2021")) by (vm_compute; reflexivity).
  assert (Hh : get (xpath (response_xpath ajax_page matches_link) "@href") = Some "#")
    by (vm_compute; reflexivity).
  assert (H1 : attrib (response_xpath ajax_page matches_link) !! "data-hash" = Some "h1")
    by (vm_compute; reflexivity).
  assert (H2 : attrib (response_xpath ajax_page matches_link) !! "data-zzz" = Some "t2")
    by (vm_compute; reflexivity).
  assert (H3 : attrib (response_xpath ajax_page matches_link) !! "data-z" = Some "c3")
    by (vm_compute; reflexivity).
  intros h.
  split; [exact Ht |]. split; [exact Hs |]. split; [exact Hh |].
  exact (proj1 (ajax_link_posts_form spec_schema ajax_page ∅ _ _ _ _ _ Ht Hs Hh H1 H2 H3)).
Defined.

(** ** Fields that feed the digest must be present *)

(** C4, as stated, fails: when the title heading is not found the loaded
    League has no [title] field, [league['title']] raises [KeyError] and
    nothing is yielded; likewise for a match page without a timestamp. *)
Lemma missing_field_counterexample :
  league_fields spec_schema untitled_ajax_page ∅ !! "title" = None /\
  yielded (parse_season spec_schema untitled_ajax_page ∅) = [] /\
  outcome (parse_season spec_schema untitled_ajax_page ∅) = inl (KeyError "title") /\
  match_fields spec_schema (match_page [] []) league_kwargs !! "timestamp" = None /\
  yielded (parse_match spec_schema (match_page [] []) league_kwargs) = [] /\
  outcome (parse_match spec_schema (match_page [] []) league_kwargs)
    = inl (KeyError "timestamp").
Proof. repeat split; vm_compute; reflexivity. Qed.

(** C4, amended. The digest is computed, and the record yielded first,
    whenever every field that feeds it is set on the loaded record,
    whatever the values are; when one of them is not set the callback
    raises [KeyError] for the first missing field and yields nothing. *)
Theorem digest_needs_fields sch r kw :
  match league_fields sch r kw !! "title", league_fields sch r kw !! "season" with
  | Some title, Some season =>
      exists rest,
        yielded (parse_season sch r kw)
        = YItem 0 League (<["hash" := VStr (fields_digest [title; season])]>
                            (league_fields sch r kw)) :: rest
  | None, _ =>
      yielded (parse_season sch r kw) = [] /\
      outcome (parse_season sch r kw) = inl (KeyError "title")
  | Some _, None =>
      yielded (parse_season sch r kw) = [] /\
      outcome (parse_season sch r kw) = inl (KeyError "season")
  end /\
  match match_fields sch r kw !! "league_hash", match_fields sch r kw !! "timestamp",
        match_fields sch r kw !! "home_team", match_fields sch r kw !! "away_team" with
  | Some league_hash, Some timestamp, Some home_team, Some away_team =>
      exists rest,
        yielded (parse_match sch r kw)
        = YItem 0 Match
            (<["hash" := VStr (fields_digest [league_hash; timestamp; home_team; away_team])]>
               (match_fields sch r kw)) :: rest
  | None, _, _, _ =>
      yielded (parse_match sch r kw) = [] /\
      outcome (parse_match sch r kw) = inl (KeyError "league_hash")
  | Some _, None, _, _ =>
      yielded (parse_match sch r kw) = [] /\
      outcome (parse_match sch r kw) = inl (KeyError "timestamp")
  | Some _, Some _, None, _ =>
      yielded (parse_match sch r kw) = [] /\
      outcome (parse_match sch r kw) = inl (KeyError "home_team")
  | Some _, Some _, Some _, None =>
      yielded (parse_match sch r kw) = [] /\
      outcome (parse_match sch r kw) = inl (KeyError "away_team")
  end.
Proof.
  unfold yielded, outcome. rewrite parse_season_run, parse_match_run. cbv zeta.
  split.
  - destruct (league_fields sch r kw !! "title"); [| by split].
    destruct (league_fields sch r kw !! "season"); [| by split].
    repeat match goal with
      | |- context [match ?m !! ?k with _ => _ end] => destruct (m !! k)
      | |- context [if ?b then _ else _] => destruct b
      end; cbn [fst st_out]; eexists; reflexivity.
  - destruct (match_fields sch r kw !! "league_hash"); [| by split].
    destruct (match_fields sch r kw !! "timestamp"); [| by split].
    destruct (match_fields sch r kw !! "home_team"); [| by split].
    destruct (match_fields sch r kw !! "away_team"); [| by split].
    destruct (response_xpath r statistics_panel); cbn [fst st_out]; eexists; reflexivity.
Qed.

(** ** The match page: one Match, and statistics when the panel is there *)

Lemma statistics_match_hash sch r h :
  stores_as_is sch PostMatchStatistics "match_hash" (VStr h) ->
  statistics_fields sch r (VStr h) !! "match_hash" = Some (VStr h).
Proof.
  intros [Htruthy Hout].
  unfold statistics_fields. rewrite (right_id_L ∅ (∪)), output_fields_lookup.
  unfold statistics_loader.
  rewrite !add_xpath_other by done.
  rewrite add_value_fresh by (done || apply lookup_empty).
  repeat first [ rewrite (proj1 (add_xpath_frame _ _ _ _))
               | rewrite (proj1 (add_value_frame _ _ _ _)) ].
  cbn [ld_class arg_to_iter]. cbv zeta.
  by rewrite Htruthy, Hout.
Qed.

Lemma match_fields_league_hash sch r kw h :
  dict_get kw "league_hash" = VStr h ->
  stores_as_is sch Match "league_hash" (VStr h) ->
  match_fields sch r kw !! "league_hash" = Some (VStr h).
Proof.
  intros Hkw [Htruthy Hout].
  unfold match_fields. rewrite (right_id_L ∅ (∪)), output_fields_lookup.
  unfold match_loader, match_loader_teams.
  rewrite !add_xpath_other by done.
  rewrite Hkw.
  rewrite add_value_fresh by (done || apply lookup_empty).
  repeat first [ rewrite (proj1 (add_xpath_frame _ _ _ _))
               | rewrite (proj1 (add_value_frame _ _ _ _)) ].
  cbn [ld_class arg_to_iter]. cbv zeta.
  by rewrite Htruthy, Hout.
Qed.

(** C6, as stated, fails on a match page where the timestamp element is
    not found (the page has not rendered its data): no Match record is
    yielded. *)
Lemma match_page_counterexample :
  ~ (exists m,
       items_of Match (yielded (parse_match spec_schema (match_page [] []) league_kwargs))
       = [m]).
Proof.
  intros (m & H). apply (f_equal length) in H.
  vm_compute in H. discriminate H.
Qed.

(** C6, amended. On a match page whose loaded record has league_hash,
    timestamp, home_team and away_team, [parse_match] yields exactly one
    Match record; it yields one PostMatchStatistics record, built by a
    loader that was given the Match's hash as [match_hash], exactly when
    the statistics panel is found, and none otherwise. The stored
    [match_hash] is that hash when the declared processors keep a single
    value as it is. *)
Theorem match_then_statistics sch r kw league_hash timestamp home_team away_team :
  match_fields sch r kw !! "league_hash" = Some league_hash ->
  match_fields sch r kw !! "timestamp" = Some timestamp ->
  match_fields sch r kw !! "home_team" = Some home_team ->
  match_fields sch r kw !! "away_team" = Some away_team ->
  let h := fields_digest [league_hash; timestamp; home_team; away_team] in
  items_of Match (yielded (parse_match sch r kw))
    = [<["hash" := VStr h]> (match_fields sch r kw)] /\
  items_of PostMatchStatistics (yielded (parse_match sch r kw))
    = match response_xpath r statistics_panel with
      | [] => []
      | _ :: _ => [statistics_fields sch r (VStr h)]
      end /\
  items_of League (yielded (parse_match sch r kw)) = [] /\
  requests_of (yielded (parse_match sch r kw)) = [] /\
  outcome (parse_match sch r kw) = inr tt /\
  (stores_as_is sch PostMatchStatistics "match_hash" (VStr h) ->
   statistics_fields sch r (VStr h) !! "match_hash" = Some (VStr h)).
Proof.
  intros Hlh Hts Hht Hat h.
  unfold yielded, outcome. rewrite parse_match_run. cbv zeta.
  rewrite Hlh, Hts, Hht, Hat.
  split_and!; try (by destruct (response_xpath r statistics_panel)).
  apply statistics_match_hash.
Qed.

Lemma match_then_statistics_witness :
  let r := match_page [leaf "1600000000"] [element [("class", "w100 cf ac")] []] in
  match_fields spec_schema r league_kwargs !! "league_hash"
    = Some (VStr "e4415541524ca67337fadfa0f3adf9bd") /\
  match_fields spec_schema r league_kwargs !! "timestamp" = Some (VStr "1600000000") /\
  match_fields spec_schema r league_kwargs !! "home_team" = Some (VStr "Arsenal") /\
  match_fields spec_schema r league_kwargs !! "away_team" = Some (VStr "Chelsea") /\
  items_of Match (yielded (parse_match spec_schema r league_kwargs)) = [sample_match] /\
  items_of PostMatchStatistics (yielded (parse_match spec_schema r league_kwargs))
    = [sample_statistics].
Proof.
  intros r.
  assert (H1 : match_fields spec_schema r league_kwargs !! "league_hash"
               = Some (VStr "e4415541524ca67337fadfa0f3adf9bd")) by (vm_compute; reflexivity).
  assert (H2 : match_fields spec_schema r league_kwargs !! "timestamp"
               = Some (VStr "1600000000")) by (vm_compute; reflexivity).
  assert (H3 : match_fields spec_schema r league_kwargs !! "home_team"
               = Some (VStr "Arsenal")) by (vm_compute; reflexivity).
  assert (H4 : match_fields spec_schema r league_kwargs !! "away_team"
               = Some (VStr "Chelsea")) by (vm_compute; reflexivity).
  destruct (match_then_statistics spec_schema r league_kwargs _ _ _ _ H1 H2 H3 H4)
    as (Hm & Hs & _).
  split; [exact H1 |]. split; [exact H2 |]. split; [exact H3 |]. split; [exact H4 |].
  split.
  - rewrite Hm. vm_compute. reflexivity.
  - rewrite Hs. vm_compute. reflexivity.
Defined.

(** ** Loops over the elements of a page *)

(** A loop whose body only adds events runs to the end and adds them in
    order. *)
Lemma for_each_all {A} (l : list A) (body : A -> M unit) (out : A -> list event) :
  (forall x, x ∈ l ->
     forall st, body x st = (GenState (st_heap st) (st_out st ++ out x), inr tt)) ->
  forall st,
    for_each l body st
    = (GenState (st_heap st) (st_out st ++ flat_map out l), inr tt).
Proof.
  induction l as [| x l IH]; intros Hbody st.
  - cbn. rewrite app_nil_r. by destruct st.
  - cbn [for_each flat_map]. unfold bind at 1.
    rewrite (Hbody x) by apply list_elem_of_here.
    rewrite IH by (intros y Hy; apply Hbody; by apply list_elem_of_further).
    cbn [st_heap st_out]. by rewrite <- app_assoc.
Qed.

(** A loop stops at the first element on which the body raises: the
    events of the elements before it are there, nothing of those after. *)
Lemma for_each_raises {A} (good : list A) (bad : A) (rest : list A)
    (body : A -> M unit) (out : A -> list event) (e : exn) :
  (forall x, x ∈ good ->
     forall st, body x st = (GenState (st_heap st) (st_out st ++ out x), inr tt)) ->
  (forall st, body bad st = (st, inl e)) ->
  forall st,
    for_each (good ++ bad :: rest) body st
    = (GenState (st_heap st) (st_out st ++ flat_map out good), inl e).
Proof.
  induction good as [| x good IH]; intros Hgood Hbad st.
  - cbn [app for_each flat_map]. unfold bind at 1. rewrite Hbad.
    rewrite app_nil_r. by destruct st.
  - cbn [app for_each flat_map]. unfold bind at 1.
    rewrite (Hgood x) by apply list_elem_of_here.
    rewrite IH by (try done; intros y Hy; apply Hgood; by apply list_elem_of_further).
    cbn [st_heap st_out]. by rewrite <- app_assoc.
Qed.

Lemma flat_map_singleton {A B} (f : A -> B) (l : list A) :
  flat_map (fun x => [f x]) l = map f l.
Proof. induction l as [| x l IH]; cbn; congruence. Qed.

(** ** Loops that only yield requests *)

Lemma for_each_yield_request {A} (l : list A) (mk : A -> request) st :
  for_each l (fun x => yield_request (mk x)) st
  = (GenState (st_heap st) (st_out st ++ map (fun x => YRequest (mk x)) l), inr tt).
Proof.
  rewrite (for_each_all l _ (fun x => [YRequest (mk x)])) by done.
  by rewrite flat_map_singleton.
Qed.

(** A loop that follows links yields a request for each when [follow]
    accepts them all, and stops with [ValueError] at the first it
    refuses. *)
Lemma for_each_follow r (urls : list string) cb kw st :
  all_followable r urls ->
  for_each urls (fun url => bind (follow r url cb kw) yield_request) st
  = (GenState (st_heap st)
       (st_out st ++ map (fun url => YRequest (Request FollowLink url cb kw)) urls),
     inr tt).
Proof.
  intros Hok.
  rewrite (for_each_all urls _ (fun url => [YRequest (Request FollowLink url cb kw)])).
  - by rewrite flat_map_singleton.
  - intros url Hin st'. unfold all_followable in Hok. rewrite Forall_forall in Hok.
    unfold bind, follow. by rewrite (Hok url Hin).
Qed.

Lemma for_each_follow_refused r (ok : list string) url rest cb kw st :
  all_followable r ok ->
  resp_follows r url = false ->
  for_each (ok ++ url :: rest) (fun url => bind (follow r url cb kw) yield_request) st
  = (GenState (st_heap st)
       (st_out st ++ map (fun url => YRequest (Request FollowLink url cb kw)) ok),
     inl ValueError).
Proof.
  intros Hok Hno.
  rewrite (for_each_raises ok url rest _
             (fun url => [YRequest (Request FollowLink url cb kw)]) ValueError).
  - by rewrite flat_map_singleton.
  - intros u Hin st'. unfold all_followable in Hok. rewrite Forall_forall in Hok.
    unfold bind, follow. by rewrite (Hok u Hin).
  - intros st'. unfold bind, follow. by rewrite Hno.
Qed.

Lemma requests_of_map_request (rqs : list request) :
  requests_of (map YRequest rqs) = rqs.
Proof. induction rqs as [| rq rqs IH]; cbn; congruence. Qed.

Lemma items_of_map_request cls (rqs : list request) :
  items_of cls (map YRequest rqs) = [].
Proof. induction rqs as [| rq rqs IH]; cbn; congruence. Qed.

(** ** [parse_leagues] *)

(** The body of the loop of [parse_leagues] on one country group all of
    whose links can be followed. *)
Lemma parse_leagues_group r (selector : Selector) st :
  links_followable r selector ->
  bind (dict_getitem (sel_attrib selector) "id") (fun country =>
    for_each (getall (xpath1 selector leagues_urls_xpath)) (fun url =>
      bind (follow r url parse_league_cb {[ "country" := VStr country ]})
           yield_request)) st
  = match sel_attrib selector !! "id" with
    | Some _ => (GenState (st_heap st)
                   (st_out st ++ map YRequest (country_requests selector)), inr tt)
    | None => (st, inl (KeyError "id"))
    end.
Proof.
  intros Hok. unfold bind at 1. unfold dict_getitem, country_requests.
  destruct (sel_attrib selector !! "id") as [c |]; [| reflexivity].
  cbn [ret default]. rewrite for_each_follow by exact Hok. by rewrite map_map.
Qed.

Lemma flat_map_requests (f : Selector -> list request) (l : list Selector) :
  flat_map (fun selector => map YRequest (f selector)) l = map YRequest (flat_map f l).
Proof. induction l as [| g l IH]; [reflexivity |]. cbn [flat_map]. by rewrite map_app, IH. Qed.

(** When every country group has an id and all its links can be followed,
    [parse_leagues] yields the requests of each group in turn and nothing
    else. *)
Lemma parse_leagues_run r :
  Forall (fun selector => is_Some (sel_attrib selector !! "id"))
         (response_xpath r countries_xpath) ->
  Forall (links_followable r) (response_xpath r countries_xpath) ->
  run (parse_leagues r)
  = (GenState [] (map YRequest (flat_map country_requests (response_xpath r countries_xpath))),
     inr tt).
Proof.
  intros Hids Hok. unfold run, parse_leagues.
  rewrite (for_each_all _ _ (fun selector => map YRequest (country_requests selector))).
  - cbn [init_state st_heap st_out app]. by rewrite flat_map_requests.
  - intros g Hin st. rewrite Forall_forall in Hids, Hok.
    rewrite parse_leagues_group by (by apply Hok).
    by destruct (Hids g Hin) as [c ->].
Qed.

(** C7, as stated, fails on a leagues index with two country groups of
    three links each when one of the links cannot be followed: [follow]
    raises [ValueError] at that link, and the links after it get no
    request. *)
Lemma refused_link_counterexample :
  map (fun selector => (sel_attrib selector !! "id",
                        getall (xpath1 selector leagues_urls_xpath)))
      (response_xpath mail_link_page countries_xpath)
    = [ (Some "england", ["/england/premier-league"; "mailto:a@b.c"; "/england/fa-cup"]);
        (Some "spain", ["/spain/la-liga"; "/spain/segunda"; "/spain/copa"]) ] /\
  requests_of (yielded (parse_leagues mail_link_page))
    = [follow_league "england" "/england/premier-league"] /\
  outcome (parse_leagues mail_link_page) = inl ValueError /\
  ~ (length (requests_of (yielded (parse_leagues mail_link_page))) = 6%nat).
Proof.
  split_and!; try (vm_compute; reflexivity).
  vm_compute. discriminate.
Qed.

(** C7, amended. On a leagues index with two country groups, each with an
    id and three league links, all six of which [follow] accepts,
    [parse_leagues] yields no item and exactly six link-follow requests,
    in page order, each carrying the id of the group its link came from as
    [country]. *)
Theorem two_countries_three_leagues r g1 g2 c1 c2 u1 u2 u3 u4 u5 u6 :
  response_xpath r countries_xpath = [g1; g2] ->
  sel_attrib g1 !! "id" = Some c1 ->
  sel_attrib g2 !! "id" = Some c2 ->
  getall (xpath1 g1 leagues_urls_xpath) = [u1; u2; u3] ->
  getall (xpath1 g2 leagues_urls_xpath) = [u4; u5; u6] ->
  all_followable r [u1; u2; u3; u4; u5; u6] ->
  yielded (parse_leagues r)
    = map YRequest [ follow_league c1 u1; follow_league c1 u2; follow_league c1 u3;
                     follow_league c2 u4; follow_league c2 u5; follow_league c2 u6 ] /\
  (forall cls, items_of cls (yielded (parse_leagues r)) = []) /\
  length (requests_of (yielded (parse_leagues r))) = 6%nat /\
  outcome (parse_leagues r) = inr tt.
Proof.
  intros Hg H1 H2 Hu1 Hu2 Hok.
  assert (Hrun := parse_leagues_run r).
  rewrite Hg in Hrun.
  specialize (Hrun ltac:(repeat constructor; eauto)).
  unfold all_followable in Hok. rewrite !Forall_cons in Hok.
  destruct Hok as (F1 & F2 & F3 & F4 & F5 & F6 & _).
  assert (Hlinks : Forall (links_followable r) [g1; g2]).
  { repeat constructor; unfold links_followable, all_followable;
      rewrite ?Hu1, ?Hu2; by repeat constructor. }
  specialize (Hrun Hlinks).
  cbn [flat_map] in Hrun. unfold country_requests in Hrun.
  rewrite H1, H2, Hu1, Hu2 in Hrun. cbn [default map app] in Hrun.
  unfold yielded, outcome. rewrite Hrun. cbn [fst snd st_out].
  split_and!; reflexivity.
Qed.

Lemma two_countries_three_leagues_witness :
  yielded (parse_leagues leagues_page)
  = map YRequest
      [ follow_league "england" "/england/premier-league";
        follow_league "england" "/england/championship";
        follow_league "england" "/england/fa-cup";
        follow_league "spain" "/spain/la-liga";
        follow_league "spain" "/spain/segunda";
        follow_league "spain" "/spain/copa" ].
Proof.
  refine (proj1 (two_countries_three_leagues leagues_page
                   (country_group "england" ["/england/premier-league";
                                             "/england/championship"; "/england/fa-cup"])
                   (country_group "spain" ["/spain/la-liga"; "/spain/segunda"; "/spain/copa"])
                   "england" "spain" _ _ _ _ _ _ _ _ _ _ _ _));
    try (vm_compute; reflexivity).
  repeat constructor.
Defined.

(** ** The league hash travels down the request chain *)

Lemma parse_matches_run r kw :
  run (parse_matches r kw)
  = (GenState [] (map YRequest (map (render_match (dict_get kw "league_hash"))
                                    (getall (response_xpath r match_urls_xpath)))),
     inr tt).
Proof.
  unfold run, parse_matches. rewrite for_each_yield_request.
  cbn [init_state st_heap st_out app]. by rewrite map_map.
Qed.

Lemma dict_get_singleton k (v : value) : dict_get {[ k := v ]} k = v.
Proof. unfold dict_get. by rewrite lookup_singleton_eq. Qed.

(** From a request to [parse_matches] that carries [h] down to the Match
    records of the match pages it leads to. *)
Lemma league_hash_downstream sch h rq :
  rq_callback rq = parse_matches_cb ->
  rq_cb_kwargs rq = {[ "league_hash" := VStr h ]} ->
  forall r2 rq2,
    YRequest rq2 ∈ yielded (handle sch rq r2) ->
    rq_callback rq2 = parse_match_cb /\
    rq_cb_kwargs rq2 = {[ "league_hash" := VStr h ]} /\
    forall r3 obj m,
      YItem obj Match m ∈ yielded (handle sch rq2 r3) ->
      (exists d, m = <["hash" := d]> (match_fields sch r3 {[ "league_hash" := VStr h ]})) /\
      (stores_as_is sch Match "league_hash" (VStr h) ->
       m !! "league_hash" = Some (VStr h)).
Proof.
  intros Hcb Hkw r2 rq2. unfold handle at 1. rewrite Hcb, Hkw. cbn [dispatch].
  unfold yielded at 1. rewrite parse_matches_run. cbn [fst st_out].
  rewrite dict_get_singleton. intros Hin2.
  apply list_elem_of_fmap in Hin2 as (rq2' & [= ->] & Hin2).
  apply list_elem_of_fmap in Hin2 as (url & -> & _).
  split; [reflexivity |]. split; [reflexivity |].
  intros r3 obj m. unfold handle. cbn [render_match rq_callback rq_cb_kwargs dispatch].
  unfold yielded. rewrite parse_match_run. cbv zeta.
  set (kw3 := {[ "league_hash" := VStr h ]}).
  destruct (match_fields sch r3 kw3 !! "league_hash") as [lh |];
    [| cbn [fst st_out]; intros H; inversion H].
  destruct (match_fields sch r3 kw3 !! "timestamp") as [ts |];
    [| cbn [fst st_out]; intros H; inversion H].
  destruct (match_fields sch r3 kw3 !! "home_team") as [ht |];
    [| cbn [fst st_out]; intros H; inversion H].
  destruct (match_fields sch r3 kw3 !! "away_team") as [at_ |];
    [| cbn [fst st_out]; intros H; inversion H].
  intros Hin3.
  assert (Hm : m = <["hash" := VStr (fields_digest [lh; ts; ht; at_])]>
                     (match_fields sch r3 kw3)).
  { revert Hin3. destruct (response_xpath r3 statistics_panel); cbn [fst st_out]; intros Hin3;
      repeat (apply elem_of_cons in Hin3 as [Hin3 | Hin3];
              [ try discriminate Hin3; injection Hin3 as _ ->; auto | ]);
      inversion Hin3. }
  split; [eauto |].
  intros Hkeep. rewrite Hm, lookup_insert_ne by done.
  apply match_fields_league_hash; [apply dict_get_singleton | exact Hkeep].
Qed.

(** C9. Every request [parse_season] yields comes after the League record
    whose hash is already assigned, and carries that hash as the
    [league_hash] keyword argument of [parse_matches]; every request
    [parse_matches] then yields carries the same value to [parse_match];
    and the Match record built there is loaded with that value as
    [league_hash], which is stored unchanged when the declared processors
    keep a single value as it is. *)
Theorem league_hash_carried sch r kw rq :
  YRequest rq ∈ yielded (parse_season sch r kw) ->
  exists league h rest,
    yielded (parse_season sch r kw) = YItem 0 League league :: rest /\
    YRequest rq ∈ rest /\
    league !! "hash" = Some (VStr h) /\
    rq_callback rq = parse_matches_cb /\
    rq_cb_kwargs rq = {[ "league_hash" := VStr h ]} /\
    forall r2 rq2,
      YRequest rq2 ∈ yielded (handle sch rq r2) ->
      rq_callback rq2 = parse_match_cb /\
      rq_cb_kwargs rq2 = {[ "league_hash" := VStr h ]} /\
      forall r3 obj m,
        YItem obj Match m ∈ yielded (handle sch rq2 r3) ->
        (exists d, m = <["hash" := d]> (match_fields sch r3 {[ "league_hash" := VStr h ]})) /\
        (stores_as_is sch Match "league_hash" (VStr h) ->
         m !! "league_hash" = Some (VStr h)).
Proof.
  unfold yielded at 1 2. rewrite parse_season_run. cbv zeta.
  destruct (league_fields sch r kw !! "title") as [t |];
    [| cbn [fst st_out]; intros H; inversion H].
  destruct (league_fields sch r kw !! "season") as [s |];
    [| cbn [fst st_out]; intros H; inversion H].
  repeat match goal with
    | |- context [match ?m !! ?k with _ => _ end] => destruct (m !! k)
    | |- context [if ?b then _ else _] => destruct b
    end;
    cbn [fst st_out]; intros Hin;
    repeat (apply elem_of_cons in Hin as [Hin | Hin]; [try discriminate Hin |]);
    try (inversion Hin; fail);
    injection Hin as ->;
    eexists _, (fields_digest [t; s]), _;
    (split; [reflexivity |]);
    (split; [apply list_elem_of_here |]);
    (split; [apply lookup_insert_eq |]);
    (split; [reflexivity |]);
    (split; [reflexivity |]);
    by apply league_hash_downstream.
Qed.

Lemma league_hash_carried_witness :
  YRequest sample_form_request ∈ yielded (parse_season spec_schema ajax_page ∅) /\
  stores_as_is spec_schema Match "league_hash" (VStr "e4415541524ca67337fadfa0f3adf9bd") /\
  forall obj m,
    YItem obj Match m
      ∈ yielded (handle spec_schema
                   (render_match (VStr "e4415541524ca67337fadfa0f3adf9bd")
                                 "england/arsenal-vs-chelsea")
                   (match_page [leaf "1600000000"] [])) ->
    m !! "league_hash" = Some (VStr "e4415541524ca67337fadfa0f3adf9bd").
Proof.
  assert (H : YRequest sample_form_request ∈ yielded (parse_season spec_schema ajax_page ∅))
    by (vm_compute; apply list_elem_of_further, list_elem_of_here).
  assert (Hkeep : stores_as_is spec_schema Match "league_hash"
                    (VStr "e4415541524ca67337fadfa0f3adf9bd"))
    by (split; vm_compute; reflexivity).
  split; [exact H |]. split; [exact Hkeep |].
  destruct (league_hash_carried spec_schema ajax_page ∅ sample_form_request H)
    as (league & h & rest & Hy & _ & Hh & _ & Hkw & Hdown).
  assert (Heq : h = "e4415541524ca67337fadfa0f3adf9bd").
  { assert (Hl := f_equal (fun m => m !! "league_hash") Hkw).
    cbn beta in Hl. rewrite lookup_singleton_eq in Hl.
    vm_compute in Hl. by injection Hl as <-. }
  subst h.
  assert (H2 : YRequest (render_match (VStr "e4415541524ca67337fadfa0f3adf9bd")
                                      "england/arsenal-vs-chelsea")
               ∈ yielded (handle spec_schema sample_form_request matches_page))
    by (vm_compute; apply list_elem_of_here).
  destruct (Hdown matches_page _ H2) as (_ & _ & Hmatch).
  intros obj m Hm.
  exact (proj2 (Hmatch _ obj m Hm) Hkeep).
Defined.

(** ** Both score fields read the same query *)

Lemma match_loader_teams_response sch i r kw :
  ld_response (match_loader_teams sch i r kw) = r.
Proof.
  unfold match_loader_teams.
  repeat first [ rewrite (proj2 (proj2 (add_xpath_frame _ _ _ _)))
               | rewrite (proj2 (proj2 (add_value_frame _ _ _ _))) ].
  reflexivity.
Qed.

Lemma match_loader_teams_class sch i r kw :
  ld_class (match_loader_teams sch i r kw) = Match.
Proof.
  unfold match_loader_teams.
  repeat first [ rewrite (proj1 (add_xpath_frame _ _ _ _))
               | rewrite (proj1 (add_value_frame _ _ _ _)) ].
  reflexivity.
Qed.

Lemma match_loader_teams_no_result sch i r kw f :
  f = "home_result" \/ f = "away_result" ->
  ld_values (match_loader_teams sch i r kw) !! f = None.
Proof.
  intros Hf. unfold match_loader_teams.
  rewrite !add_xpath_other, add_value_other by (destruct Hf as [-> | ->]; done).
  cbn [ld_values]. by rewrite lookup_empty.
Qed.

Lemma match_loader_results sch i r kw :
  match_loader sch i r kw
  = add_value sch
      (add_value sch (match_loader_teams sch i r kw) "home_result"
         (VList (get_xpath r home_result_xpath)))
      "away_result" (VList (get_xpath r home_result_xpath)).
Proof.
  unfold match_loader, add_xpath.
  rewrite (proj2 (proj2 (add_value_frame _ _ _ _))), match_loader_teams_response.
  reflexivity.
Qed.

(** C10. In [parse_match] the queries for [home_result] and [away_result]
    are the same path expression, so on every page both fields are fed the
    same extracted values; with the same processors declared for both,
    the two fields of the Match record are equal. *)
Theorem results_share_one_query sch i r kw :
  home_result_xpath = away_result_xpath /\
  let raw := get_xpath r home_result_xpath in
  get_xpath r away_result_xpath = raw /\
  match_loader sch i r kw
    = add_value sch
        (add_value sch (match_loader_teams sch i r kw) "home_result" (VList raw))
        "away_result" (VList raw) /\
  ((forall vs, input_processor sch Match "home_result" vs
               = input_processor sch Match "away_result" vs) ->
   (forall vs, output_processor sch Match "home_result" vs
               = output_processor sch Match "away_result" vs) ->
   match_fields sch r kw !! "home_result" = match_fields sch r kw !! "away_result").
Proof.
  split; [reflexivity |]. cbv zeta. split; [reflexivity |].
  split; [apply match_loader_results |].
  intros Hin Hout. unfold match_fields.
  rewrite (right_id_L ∅ (∪)), !output_fields_lookup, match_loader_results.
  rewrite add_value_other by done.
  rewrite !add_value_fresh
    by (done || (try rewrite add_value_other by done);
        apply match_loader_teams_no_result; auto).
  rewrite !(proj1 (add_value_frame _ _ _ _)), match_loader_teams_class.
  cbn [arg_to_iter]. cbv zeta. rewrite Hin.
  destruct (truthy _); [| reflexivity].
  by rewrite Hout.
Qed.

(** ** The digested text determines the fields *)

Lemma string_app_cons c (s t : string) : String c s +:+ t = String c (s +:+ t).
Proof. reflexivity. Qed.

Lemma string_app_nil (t : string) : "" +:+ t = t.
Proof. reflexivity. Qed.

Lemma string_app_assoc (s1 s2 s3 : string) : (s1 +:+ s2) +:+ s3 = s1 +:+ (s2 +:+ s3).
Proof.
  induction s1 as [| c s1 IH]; [reflexivity |].
  by rewrite !string_app_cons, IH.
Qed.

Lemma unescape_char q c tail :
  q = squote \/ q = dquote ->
  unescape q (escape_char q c +:+ tail) = cons_fst c (unescape q tail).
Proof. intros [-> | ->]; each_char c; reflexivity. Qed.

Lemma unescape_escape q s rest :
  q = squote \/ q = dquote ->
  unescape q (escape q s +:+ String q rest) = Some (s, rest).
Proof.
  intros Hq. induction s as [| c s IH].
  - cbn [escape]. rewrite string_app_nil. cbn [unescape]. by rewrite Ascii.eqb_refl.
  - cbn [escape]. by rewrite string_app_assoc, unescape_char, IH.
Qed.

Lemma repr_quote_cases s : repr_quote s = squote \/ repr_quote s = dquote.
Proof. unfold repr_quote. destruct (_ && _); auto. Qed.

Lemma unrepr_repr s rest : unrepr (repr_str s +:+ rest) = Some (s, rest).
Proof.
  unfold repr_str.
  rewrite string_app_cons, string_app_assoc, string_app_cons, string_app_nil.
  cbn [unrepr].
  assert (Hq := repr_quote_cases s).
  replace (Ascii.eqb (repr_quote s) squote || Ascii.eqb (repr_quote s) dquote) with true
    by (destruct Hq as [-> | ->]; reflexivity).
  by apply unescape_escape.
Qed.

(** The string form of a list of two strings can be read back. *)
Lemma unstr_pair_str a b : unstr_pair (str (VList [VStr a; VStr b])) = Some (a, b).
Proof.
  unfold unstr_pair. cbn [str repr map join].
  repeat first [ rewrite string_app_cons | rewrite string_app_nil
               | rewrite string_app_assoc ].
  cbn [strip_prefix]. change (Ascii.eqb "[" "[") with true. cbv iota.
  rewrite unrepr_repr.
  cbn [strip_prefix]. change (Ascii.eqb "," ",") with true.
  change (Ascii.eqb " " " ") with true. cbv iota.
  by rewrite unrepr_repr.
Qed.

Lemma decode_char c tail : decode (encode_char c ++ tail) = String c (decode tail).
Proof. each_char c; reflexivity. Qed.

Lemma decode_encode s : decode (encode s) = s.
Proof.
  induction s as [| c s IH]; [reflexivity |].
  cbn [encode]. by rewrite decode_char, IH.
Qed.

Lemma string_of_bits_inj bs1 bs2 :
  string_of_bits bs1 = string_of_bits bs2 -> bs1 = bs2.
Proof.
  revert bs2. induction bs1 as [| b1 bs1 IH]; intros [| b2 bs2] H; try discriminate H.
  - reflexivity.
  - cbn in H. injection H as Hb Hs. f_equal; [| by apply IH].
    by destruct b1, b2.
Qed.

Lemma octet_of_ascii_inj c1 c2 : octet_of_ascii c1 = octet_of_ascii c2 -> c1 = c2.
Proof. destruct c1, c2. cbn. by intros [= -> -> -> -> -> -> -> ->]. Qed.

Lemma map_octet_inj la lb :
  map octet_of_ascii la = map octet_of_ascii lb -> la = lb.
Proof.
  revert lb. induction la as [| a la IH]; intros [| b lb] H; try discriminate H;
    [reflexivity |].
  cbn in H. injection H as Hc Hl. f_equal; [by apply octet_of_ascii_inj | by apply IH].
Qed.

Lemma list_ascii_of_string_inj s1 s2 :
  list_ascii_of_string s1 = list_ascii_of_string s2 -> s1 = s2.
Proof.
  intros H. rewrite <- (string_of_list_ascii_of_string s1),
    <- (string_of_list_ascii_of_string s2). by rewrite H.
Qed.

Lemma length_list_ascii_of_string s :
  length (list_ascii_of_string s) = String.length s.
Proof. induction s; cbn; congruence. Qed.

Lemma card_octet : card octet = (2 ^ 8)%nat.
Proof. rewrite !prod_card, bool_card. reflexivity. Qed.

(** Counting: a function from texts to texts of 32 characters cannot tell
    all texts apart. There are 2^257 texts of 257 zeros and ones and at
    most 2^256 texts of 32 characters. *)
Lemma fixed_length_not_injective (f : string -> string) :
  (forall s, String.length (f s) = 32%nat) ->
  ~ (forall s s', f s = f s' -> s = s').
Proof.
  intros Hlen Hinj.
  set (g := fun (bs : { l : list bool | length l = 257%nat }) =>
    (map octet_of_ascii (list_ascii_of_string (f (string_of_bits (`bs)))))
      ↾ (eq_trans (length_map _ _)
           (eq_trans (length_list_ascii_of_string _) (Hlen _)))
    : { l : list octet | length l = 32%nat }).
  assert (Hg : Inj (=) (=) g).
  { intros [l1 H1] [l2 H2] Heq. apply (f_equal proj1_sig) in Heq. cbn in Heq.
    apply (sig_eq_pi (fun l : list bool => length l = 257%nat)). cbn [proj1_sig].
    apply string_of_bits_inj. apply Hinj. apply list_ascii_of_string_inj.
    by apply map_octet_inj. }
  assert (Hcard := inj_card g).
  rewrite !list_card, bool_card, card_octet in Hcard.
  rewrite <- Nat.pow_mul_r in Hcard.
  apply Nat.pow_le_mono_r_iff in Hcard; [| repeat constructor].
  revert Hcard. change (8 * 32)%nat with 256%nat. intros Hcard.
  apply Nat.leb_le in Hcard. discriminate Hcard.
Qed.

(** So for every title two different season texts have the same League
    hash: the digest itself cannot be sensitive to every change. *)
Lemma digest_collisions_exist (title : value) :
  ~ (forall season season' : string,
       fields_digest [title; VStr season] = fields_digest [title; VStr season'] ->
       season = season').
Proof.
  apply (fixed_length_not_injective (fun s => fields_digest [title; VStr s])).
  intros s. apply hexdigest_shape.
Qed.

(** The encoded string form of the list [title, season] determines both
    strings, in order. *)
Lemma digested_text_determines_fields (title season title' season' : string) :
  encode (str (VList [VStr title; VStr season]))
  = encode (str (VList [VStr title'; VStr season'])) ->
  title = title' /\ season = season'.
Proof.
  intros Henc.
  apply (f_equal decode) in Henc. rewrite !decode_encode in Henc.
  apply (f_equal unstr_pair) in Henc. rewrite !unstr_pair_str in Henc.
  by injection Henc.
Qed.

(** ** The stored hash, from the loaded fields *)

Lemma stored_hash_eq sch r kw :
  stored_hash sch r kw
  = match league_fields sch r kw !! "title", league_fields sch r kw !! "season" with
    | Some title, Some season => Some (VStr (fields_digest [title; season]))
    | _, _ => None
    end.
Proof.
  unfold stored_hash, yielded. rewrite parse_season_run. cbv zeta.
  destruct (league_fields sch r kw !! "title") as [t |]; [| reflexivity].
  destruct (league_fields sch r kw !! "season") as [s |]; [| reflexivity].
  repeat match goal with
    | |- context [match ?m !! ?k with _ => _ end] => destruct (m !! k) eqn:?
    | |- context [if ?b then _ else _] => destruct b eqn:?
    end;
    cbn [fst st_out items_of item_class_eqb]; apply lookup_insert_eq.
Qed.

Lemma stored_match_hash_eq sch r kw :
  stored_match_hash sch r kw
  = match match_fields sch r kw !! "league_hash", match_fields sch r kw !! "timestamp",
          match_fields sch r kw !! "home_team", match_fields sch r kw !! "away_team" with
    | Some lh, Some ts, Some ht, Some at_ => Some (VStr (fields_digest [lh; ts; ht; at_]))
    | _, _, _, _ => None
    end.
Proof.
  unfold stored_match_hash, yielded. rewrite parse_match_run. cbv zeta.
  destruct (match_fields sch r kw !! "league_hash"); [| reflexivity].
  destruct (match_fields sch r kw !! "timestamp"); [| reflexivity].
  destruct (match_fields sch r kw !! "home_team"); [| reflexivity].
  destruct (match_fields sch r kw !! "away_team"); [| reflexivity].
  destruct (response_xpath r statistics_panel);
    cbn [fst st_out items_of item_class_eqb]; apply lookup_insert_eq.
Qed.



Lemma results_share_one_query_witness :
  let r := match_page [leaf "1600000000"] [] in
  match_fields spec_schema r league_kwargs !! "home_result" = Some (VStr "2 - 1") /\
  match_fields spec_schema r league_kwargs !! "away_result" = Some (VStr "2 - 1").
Proof.
  intros r.
  assert (H : match_fields spec_schema r league_kwargs !! "home_result" = Some (VStr "2 - 1"))
    by (vm_compute; reflexivity).
  split; [exact H |].
  rewrite <- (proj2 (proj2 (proj2 (results_share_one_query spec_schema 0%nat r league_kwargs)))
                (fun _ => eq_refl) (fun _ => eq_refl)).
  exact H.
Defined.

(** ** Sample runs under other item declarations *)

(** With plain [Field()] declarations every field holds a list, and the
    digest is taken over the string form of those lists. *)
Example direct_link_default_schema :
  stored_hash default_schema direct_page ∅
    = Some (VStr "1765a89662a8de83bbddebe89ee9f04b") /\
  requests_of (yielded (parse_season default_schema direct_page ∅))
    = [ Request FollowLink "/england/premier-league/fixtures" parse_matches_cb
          {[ "league_hash" := VStr "1765a89662a8de83bbddebe89ee9f04b" ]} ].
Proof. split; vm_compute; reflexivity. Qed.

(** With such declarations the Match stores the league hash inside a
    list, not as it is. *)
Example league_hash_default_schema :
  match_fields default_schema (match_page [leaf "1600000000"] []) league_kwargs
    !! "league_hash"
  = Some (VList [VStr "e4415541524ca67337fadfa0f3adf9bd"]).
Proof. vm_compute. reflexivity. Qed.

(** An empty title text is kept by the identity processors and hashed;
    take-first drops it, and the callback raises. *)
Example empty_title_default_schema :
  outcome (parse_season default_schema (season_page "" "2020/2021" [ajax_link]) ∅) = inr tt /\
  stored_hash default_schema (season_page "" "2020/2021" [ajax_link]) ∅
    = Some (VStr "ea6587b6f012d70cb99fa3342c9ff991").
Proof. split; vm_compute; reflexivity. Qed.

Example empty_title_spec_schema :
  outcome (parse_season spec_schema (season_page "" "2020/2021" [ajax_link]) ∅)
  = inl (KeyError "title").
Proof. vm_compute. reflexivity. Qed.

Example start_requests_url :
  requests_of (yielded start_requests)
  = [ Request PlainRequest "https://footystats.org//leagues/" parse_leagues_cb ∅ ].
Proof. vm_compute. reflexivity. Qed.

(** ** Missing attributes *)

(** A matches link with href "#" that lacks [data-zzz]: the League record
    is yielded, then [matches.attrib['data-zzz']] raises. *)
Example ajax_link_without_token :
  let r := season_page "Premier League" "2020/2021"
             [a_link [("href", "#"); ("data-hash", "h1"); ("data-z", "c3")]] in
  items_of League (yielded (parse_season spec_schema r ∅)) = [sample_league] /\
  requests_of (yielded (parse_season spec_schema r ∅)) = [] /\
  outcome (parse_season spec_schema r ∅) = inl (KeyError "data-zzz").
Proof. repeat split; vm_compute; reflexivity. Qed.

(** A country group without an id: the requests of the groups before it
    are yielded, then [selector.attrib['id']] raises. *)
Example country_without_id :
  let r := page [ (countries_xpath,
                   [ country_group "england" ["/england/premier-league"];
                     element [("class", "pt2e")]
                             [ (leagues_urls_xpath, [leaf "/spain/la-liga"]) ] ]) ] in
  requests_of (yielded (parse_leagues r))
    = [follow_league "england" "/england/premier-league"] /\
  outcome (parse_leagues r) = inl (KeyError "id").
Proof. split; vm_compute; reflexivity. Qed.

(** * Further properties of the callbacks *)

(** ** [parse_league] *)

(** The body of the loop of [parse_league] on one season entry. *)
Lemma parse_league_entry (country : value) (season : Selector) st :
  bind (dict_getitem (sel_attrib season) "data-hash") (fun h =>
  bind (dict_getitem (sel_attrib season) "data-zzz") (fun z3 =>
  bind (dict_getitem (sel_attrib season) "data-zzzz") (fun z4 =>
  bind (dict_getitem (sel_attrib season) "data-z") (fun cur =>
    yield_request
      (Request (FormPost "POST" [("hash", h); ("zzz", z3); ("zzzz", z4); ("cur", cur)])
               (make_url "ajax_league.php") parse_season_cb
               {[ "country" := country ]}))))) st
  = match first_missing season_attrs (sel_attrib season) with
    | Some key => (st, inl (KeyError key))
    | None => (GenState (st_heap st)
                 (st_out st ++ [YRequest (season_request country season)]), inr tt)
    end.
Proof.
  unfold first_missing, season_attrs, season_request, attr, dict_getitem, bind.
  cbn [List.find].
  destruct (sel_attrib season !! "data-hash"); [| reflexivity].
  destruct (sel_attrib season !! "data-zzz"); [| reflexivity].
  destruct (sel_attrib season !! "data-zzzz"); [| reflexivity].
  destruct (sel_attrib season !! "data-z"); reflexivity.
Qed.

(** X1. When every season entry of a league page has the four data
    attributes, [parse_league] yields one POST form request per entry, in
    page order, each to the AJAX endpoint with the form fields hash, zzz,
    zzzz and cur of its entry and the country it was called with ([None]
    when it was called without one); it yields no item and returns. *)
Theorem parse_league_requests r kw :
  Forall (fun season => first_missing season_attrs (sel_attrib season) = None)
         (response_xpath r seasons_xpath) ->
  yielded (parse_league r kw)
    = map (fun season => YRequest (season_request (dict_get kw "country") season))
          (response_xpath r seasons_xpath) /\
  outcome (parse_league r kw) = inr tt.
Proof.
  intros Hall. unfold yielded, outcome, run, parse_league.
  change (response_xpath r _) with (response_xpath r seasons_xpath).
  rewrite (for_each_all _ _
             (fun season => [YRequest (season_request (dict_get kw "country") season)])).
  - cbn [fst snd st_out init_state app]. by rewrite flat_map_singleton.
  - intros season Hin st. rewrite parse_league_entry.
    rewrite Forall_forall in Hall. by rewrite (Hall season Hin).
Qed.

Lemma parse_league_requests_witness :
  yielded (parse_league league_page {[ "country" := VStr "england" ]})
  = [ YRequest (Request (FormPost "POST" [("hash", "a1"); ("zzz", "b1");
                                          ("zzzz", "c1"); ("cur", "2021")])
                  "https://footystats.org/ajax_league.php" parse_season_cb
                  {[ "country" := VStr "england" ]});
      YRequest (Request (FormPost "POST" [("hash", "a2"); ("zzz", "b2");
                                          ("zzzz", "c2"); ("cur", "2020")])
                  "https://footystats.org/ajax_league.php" parse_season_cb
                  {[ "country" := VStr "england" ]}) ].
Proof.
  assert (H : Forall (fun season => first_missing season_attrs (sel_attrib season) = None)
                     (response_xpath league_page seasons_xpath))
    by (repeat constructor).
  rewrite (proj1 (parse_league_requests league_page {[ "country" := VStr "england" ]} H)).
  vm_compute. reflexivity.
Defined.

(** X2. [parse_league] stops at the first season entry that lacks one of
    the four data attributes: it raises [KeyError] for the first missing
    one in the order data-hash, data-zzz, data-zzzz, data-z, having
    yielded the requests of the entries before it and none for the entries
    after it. *)
Theorem parse_league_missing_attribute r kw (good : list Selector) bad rest key :
  response_xpath r seasons_xpath = (good ++ bad :: rest)%list ->
  Forall (fun season => first_missing season_attrs (sel_attrib season) = None) good ->
  first_missing season_attrs (sel_attrib bad) = Some key ->
  yielded (parse_league r kw)
    = map (fun season => YRequest (season_request (dict_get kw "country") season)) good /\
  outcome (parse_league r kw) = inl (KeyError key).
Proof.
  intros Hsel Hgood Hbad. unfold yielded, outcome, run, parse_league.
  change (response_xpath r _) with (response_xpath r seasons_xpath). rewrite Hsel.
  rewrite (for_each_raises good bad rest _
             (fun season => [YRequest (season_request (dict_get kw "country") season)])
             (KeyError key)).
  - cbn [fst snd st_out init_state app]. by rewrite flat_map_singleton.
  - intros season Hin st. rewrite parse_league_entry.
    rewrite Forall_forall in Hgood. by rewrite (Hgood season Hin).
  - intros st. rewrite parse_league_entry. by rewrite Hbad.
Qed.

Lemma parse_league_missing_attribute_witness :
  yielded (parse_league broken_league_page ∅)
    = [ YRequest (season_request VNone (season_entry "a1" "b1" "c1" "2021")) ] /\
  outcome (parse_league broken_league_page ∅) = inl (KeyError "data-zzzz").
Proof.
  refine (parse_league_missing_attribute broken_league_page ∅
            [season_entry "a1" "b1" "c1" "2021"]
            (element [("data-hash", "a2"); ("data-zzz", "b2"); ("data-z", "2020")] [])
            [season_entry "a3" "b3" "c3" "2019"] "data-zzzz" _ _ _).
  - vm_compute. reflexivity.
  - repeat constructor.
  - vm_compute. reflexivity.
Defined.

(** ** [parse_leagues]: any number of groups and links *)

(** X3. When every country group of a leagues index has an id and
    [follow] accepts every league link, [parse_leagues] returns having
    yielded, group after group and link after link in page order, one
    link-follow request per league link with the id of its group as
    [country]; a page without groups, or a group without links, yields
    nothing. *)
Theorem parse_leagues_requests r :
  Forall (fun selector => is_Some (sel_attrib selector !! "id"))
         (response_xpath r countries_xpath) ->
  Forall (links_followable r) (response_xpath r countries_xpath) ->
  yielded (parse_leagues r)
    = map YRequest (flat_map country_requests (response_xpath r countries_xpath)) /\
  length (requests_of (yielded (parse_leagues r)))
    = length (flat_map (fun selector => getall (xpath1 selector leagues_urls_xpath))
                       (response_xpath r countries_xpath)) /\
  (forall cls, items_of cls (yielded (parse_leagues r)) = []) /\
  outcome (parse_leagues r) = inr tt.
Proof.
  intros Hids Hok. unfold yielded, outcome.
  rewrite parse_leagues_run by assumption. cbn [fst snd st_out].
  split_and!; try reflexivity.
  - rewrite requests_of_map_request.
    generalize (response_xpath r countries_xpath). intros l.
    induction l as [| g l IH]; [reflexivity |].
    cbn [flat_map]. rewrite !length_app, IH. unfold country_requests.
    by rewrite length_map.
  - intros cls. apply items_of_map_request.
Qed.

Lemma parse_leagues_requests_witness :
  length (requests_of (yielded (parse_leagues leagues_page))) = 6%nat /\
  outcome (parse_leagues leagues_page) = inr tt.
Proof.
  assert (H : Forall (fun selector => is_Some (sel_attrib selector !! "id"))
                     (response_xpath leagues_page countries_xpath))
    by (repeat constructor; vm_compute; eauto).
  assert (Hok : Forall (links_followable leagues_page)
                       (response_xpath leagues_page countries_xpath))
    by (repeat constructor).
  destruct (parse_leagues_requests leagues_page H Hok) as (_ & Hlen & _ & Hout).
  split; [| exact Hout].
  rewrite Hlen. vm_compute. reflexivity.
Defined.

(** X4. [parse_leagues] stops at the first country group without an id:
    when the groups before it have ids and links [follow] accepts, it
    raises [KeyError] for "id", having yielded the requests of those
    groups and none for that group or the groups after it. *)
Theorem parse_leagues_missing_id r (good : list Selector) bad rest :
  response_xpath r countries_xpath = (good ++ bad :: rest)%list ->
  Forall (fun selector => is_Some (sel_attrib selector !! "id")) good ->
  Forall (links_followable r) good ->
  sel_attrib bad !! "id" = None ->
  yielded (parse_leagues r) = map YRequest (flat_map country_requests good) /\
  outcome (parse_leagues r) = inl (KeyError "id").
Proof.
  intros Hsel Hgood Hok Hbad. unfold yielded, outcome, run, parse_leagues. rewrite Hsel.
  rewrite (for_each_raises good bad rest _
             (fun selector => map YRequest (country_requests selector)) (KeyError "id")).
  - cbn [fst snd st_out init_state app]. by rewrite flat_map_requests.
  - intros g Hin st. rewrite Forall_forall in Hgood, Hok.
    rewrite parse_leagues_group by (by apply Hok).
    by destruct (Hgood g Hin) as [c ->].
  - intros st. unfold bind, dict_getitem. by rewrite Hbad.
Qed.

Lemma parse_leagues_missing_id_witness :
  let r := page [ (countries_xpath,
                   [ country_group "england" ["/england/premier-league"];
                     nameless_group;
                     country_group "italy" ["/italy/serie-a"] ]) ] in
  yielded (parse_leagues r)
    = [ YRequest (follow_league "england" "/england/premier-league") ] /\
  outcome (parse_leagues r) = inl (KeyError "id").
Proof.
  intros r.
  refine (parse_leagues_missing_id r
            [country_group "england" ["/england/premier-league"]]
            nameless_group [country_group "italy" ["/italy/serie-a"]] _ _ _ _).
  - vm_compute. reflexivity.
  - repeat constructor. vm_compute. eauto.
  - repeat constructor.
  - vm_compute. reflexivity.
Defined.

(** X20. [parse_leagues] stops at the first league link that [follow]
    refuses: it raises [ValueError], having yielded the requests of the
    groups before and of the links before it in its own group, and none
    for the links and groups after it. *)
Theorem parse_leagues_refused_link r (good : list Selector) bad rest country
    (ok : list string) url more :
  response_xpath r countries_xpath = (good ++ bad :: rest)%list ->
  Forall (fun selector => is_Some (sel_attrib selector !! "id")) good ->
  Forall (links_followable r) good ->
  sel_attrib bad !! "id" = Some country ->
  getall (xpath1 bad leagues_urls_xpath) = (ok ++ url :: more)%list ->
  all_followable r ok ->
  resp_follows r url = false ->
  yielded (parse_leagues r)
    = map YRequest (flat_map country_requests good ++ map (follow_league country) ok) /\
  outcome (parse_leagues r) = inl ValueError.
Proof.
  intros Hsel Hgood Hok Hid Hurls Hfirst Hno.
  unfold yielded, outcome, run, parse_leagues. rewrite Hsel.
  assert (Hfor : forall (l : list Selector) body st,
    (forall g, g ∈ l -> forall st', body g st'
       = (GenState (st_heap st') (st_out st' ++ map YRequest (country_requests g)), inr tt)) ->
    (forall st', body bad st'
       = (GenState (st_heap st')
            (st_out st' ++ map YRequest (map (follow_league country) ok)), inl ValueError)) ->
    for_each (l ++ bad :: rest) body st
    = (GenState (st_heap st)
         (st_out st ++ map YRequest (flat_map country_requests l ++ map (follow_league country) ok)),
       inl ValueError)).
  { induction l as [| g l IH]; intros body st Hl Hb.
    - cbn [app for_each flat_map]. unfold bind at 1. by rewrite Hb.
    - cbn [app for_each flat_map]. unfold bind at 1.
      rewrite (Hl g) by apply list_elem_of_here.
      rewrite IH by (try done; intros g' Hg'; apply Hl; by apply list_elem_of_further).
      cbn [st_heap st_out]. do 2 f_equal. by rewrite ?map_app, <- ?app_assoc. }
  rewrite Hfor; [done | |].
  - intros g Hin st. rewrite Forall_forall in Hgood, Hok.
    rewrite parse_leagues_group by (by apply Hok).
    by destruct (Hgood g Hin) as [c ->].
  - intros st. unfold bind at 1. unfold dict_getitem. rewrite Hid, Hurls. cbn [ret].
    rewrite for_each_follow_refused by assumption. by rewrite map_map.
Qed.

Lemma parse_leagues_refused_link_witness :
  yielded (parse_leagues mail_link_page)
    = [ YRequest (follow_league "england" "/england/premier-league") ] /\
  outcome (parse_leagues mail_link_page) = inl ValueError.
Proof.
  refine (parse_leagues_refused_link mail_link_page []
            (country_group "england" ["/england/premier-league"; "mailto:a@b.c";
                                      "/england/fa-cup"])
            [country_group "spain" ["/spain/la-liga"; "/spain/segunda"; "/spain/copa"]]
            "england" ["/england/premier-league"] "mailto:a@b.c" ["/england/fa-cup"]
            _ _ _ _ _ _ _).
  - vm_compute. reflexivity.
  - constructor.
  - constructor.
  - vm_compute. reflexivity.
  - vm_compute. reflexivity.
  - repeat constructor.
  - vm_compute. reflexivity.
Defined.

(** ** [parse_matches] and [make_url] *)

Lemma make_url_inj path1 path2 : make_url path1 = make_url path2 -> path1 = path2.
Proof.
  unfold make_url. intros H.
  apply (inj (String.append base_url)) in H.
  by apply (inj (String.append "/")) in H.
Qed.

(** X5. [parse_matches] never raises and yields no item: it yields one
    rendering request per match link, in page order, for the url made of
    the base url, a slash and the link, to [parse_match], with the league
    hash it was called with ([None] when it was called without one).
    Different links get different urls. *)
Theorem parse_matches_requests r kw :
  let links := getall (response_xpath r match_urls_xpath) in
  yielded (parse_matches r kw)
    = map (fun url => YRequest (render_match (dict_get kw "league_hash") url)) links /\
  map rq_url (requests_of (yielded (parse_matches r kw)))
    = map (fun url => "https://footystats.org/" +:+ url) links /\
  (NoDup links -> NoDup (map rq_url (requests_of (yielded (parse_matches r kw))))) /\
  (forall cls, items_of cls (yielded (parse_matches r kw)) = []) /\
  outcome (parse_matches r kw) = inr tt.
Proof.
  intros links. unfold yielded, outcome. rewrite parse_matches_run.
  cbn [fst snd st_out]. fold links.
  assert (Hurls : map rq_url (requests_of
            (map YRequest (map (render_match (dict_get kw "league_hash")) links)))
          = map make_url links).
  { rewrite requests_of_map_request, map_map. reflexivity. }
  split_and!.
  - by rewrite map_map.
  - rewrite Hurls. reflexivity.
  - intros Hnd. rewrite Hurls.
    assert (Hinj : Inj (=) (=) make_url) by (intros p1 p2; apply make_url_inj).
    by apply (NoDup_fmap_2 make_url).
  - intros cls. apply items_of_map_request.
  - reflexivity.
Qed.

(** ** [parse_season]: the remaining branch and what holds in all *)

(** What [parse_season] can yield, over all branches. *)
Lemma parse_season_shape sch r kw :
  yielded (parse_season sch r kw) = [] \/
  exists title season,
    league_fields sch r kw !! "title" = Some title /\
    league_fields sch r kw !! "season" = Some season /\
    let h := VStr (fields_digest [title; season]) in
    let league := <["hash" := h]> (league_fields sch r kw) in
    (yielded (parse_season sch r kw) = [YItem 0 League league] /\
     ((exists key, key ∈ matches_attrs /\
                   outcome (parse_season sch r kw) = inl (KeyError key)) \/
      (is_str (get (xpath (response_xpath r matches_link) "@href")) "#" = false /\
       is_falsy (get (xpath (response_xpath r matches_link) "@href")) = false /\
       resp_follows r (default "" (get (xpath (response_xpath r matches_link) "@href")))
         = false /\
       outcome (parse_season sch r kw) = inl ValueError))) \/
    (yielded (parse_season sch r kw)
       = [YItem 0 League league; YItem 0 League (<["blocked" := VBool true]> league)] /\
     is_falsy (get (xpath (response_xpath r matches_link) "@href")) = true /\
     outcome (parse_season sch r kw) = inr tt) \/
    (exists rq,
       yielded (parse_season sch r kw) = [YItem 0 League league; YRequest rq] /\
       rq_callback rq = parse_matches_cb /\
       rq_cb_kwargs rq = {[ "league_hash" := h ]} /\
       outcome (parse_season sch r kw) = inr tt /\
       ((rq_kind rq = FollowLink /\
         get (xpath (response_xpath r matches_link) "@href") = Some (rq_url rq)) \/
        (exists formdata,
           rq_kind rq = FormPost "POST" formdata /\
           map fst formdata = ["hash"; "zzz"; "cur"] /\
           rq_url rq = "https://footystats.org/ajax_league.php"))).
Proof.
  unfold yielded, outcome. rewrite parse_season_run. cbv zeta.
  destruct (league_fields sch r kw !! "title") as [t |]; [| by left].
  destruct (league_fields sch r kw !! "season") as [s |]; [| by left].
  right. exists t, s. split; [reflexivity |]. split; [reflexivity |].
  destruct (is_str _ "#") eqn:Hstr.
  - destruct (attrib _ !! "data-hash") as [dh |];
      [| left; split; [reflexivity |]; left; exists "data-hash"; split; [in_list | reflexivity]].
    destruct (attrib _ !! "data-zzz") as [z3 |];
      [| left; split; [reflexivity |]; left; exists "data-zzz"; split; [in_list | reflexivity]].
    destruct (attrib _ !! "data-z") as [cur |];
      [| left; split; [reflexivity |]; left; exists "data-z"; split; [in_list | reflexivity]].
    right; right. eexists. split; [reflexivity |]. split_and!; try reflexivity.
    right. eexists. split_and!; reflexivity.
  - destruct (is_falsy _) eqn:Hfalsy.
    + right; left. split_and!; reflexivity.
    + destruct (resp_follows r _) eqn:Hfollows.
      * right; right. eexists. split; [reflexivity |]. split_and!; try reflexivity.
        left. split; [reflexivity |]. cbn [rq_url].
        destruct (get _) as [url |]; [reflexivity | discriminate Hfalsy].
      * left. split; [reflexivity |]. right. by split_and!.
Qed.

(** X6. On a season page whose loaded record has title and season and
    whose matches link has an href that is neither "#" nor empty and that
    [follow] accepts, [parse_season] yields the League record, with
    [blocked] not set, and then one link-follow request for that href to
    [parse_matches] with the League's hash; it yields no form request and
    returns. *)
Theorem direct_link_followed sch r kw title season url :
  league_fields sch r kw !! "title" = Some title ->
  league_fields sch r kw !! "season" = Some season ->
  get (xpath (response_xpath r matches_link) "@href") = Some url ->
  url <> "#" -> url <> "" ->
  resp_follows r url = true ->
  let h := VStr (fields_digest [title; season]) in
  let league := <["hash" := h]> (league_fields sch r kw) in
  yielded (parse_season sch r kw)
    = [ YItem 0 League league;
        YRequest (Request FollowLink url parse_matches_cb {[ "league_hash" := h ]}) ] /\
  league !! "blocked" = None /\
  outcome (parse_season sch r kw) = inr tt.
Proof.
  intros Ht Hs Hhref Hsharp Hempty Hfollows h league.
  unfold yielded, outcome. rewrite parse_season_run. cbv zeta.
  rewrite Ht, Hs, Hhref. cbn [is_str is_falsy default].
  change (id url) with url.
  apply String.eqb_neq in Hsharp, Hempty. rewrite Hsharp, Hempty, Hfollows.
  cbn [fst snd st_out]. split_and!; try reflexivity.
  subst league. rewrite lookup_insert_ne by done. apply league_fields_blocked.
Qed.

(** X21. When [follow] refuses the href of the matches link, the League
    record has already been yielded, once and with [blocked] not set: the
    callback then raises [ValueError] and yields no request. *)
Theorem refused_link_after_league sch r kw title season url :
  league_fields sch r kw !! "title" = Some title ->
  league_fields sch r kw !! "season" = Some season ->
  get (xpath (response_xpath r matches_link) "@href") = Some url ->
  url <> "#" -> url <> "" ->
  resp_follows r url = false ->
  let league := <["hash" := VStr (fields_digest [title; season])]> (league_fields sch r kw) in
  yielded (parse_season sch r kw) = [YItem 0 League league] /\
  league !! "blocked" = None /\
  outcome (parse_season sch r kw) = inl ValueError.
Proof.
  intros Ht Hs Hhref Hsharp Hempty Hfollows league.
  unfold yielded, outcome. rewrite parse_season_run. cbv zeta.
  rewrite Ht, Hs, Hhref. cbn [is_str is_falsy default].
  change (id url) with url.
  apply String.eqb_neq in Hsharp, Hempty. rewrite Hsharp, Hempty, Hfollows.
  cbn [fst snd st_out]. split_and!; try reflexivity.
  subst league. rewrite lookup_insert_ne by done. apply league_fields_blocked.
Qed.

Lemma refused_link_after_league_witness :
  get (xpath (response_xpath script_link_page matches_link) "@href")
    = Some "javascript:void(0)" /\
  items_of League (yielded (parse_season spec_schema script_link_page ∅)) = [sample_league] /\
  requests_of (yielded (parse_season spec_schema script_link_page ∅)) = [] /\
  outcome (parse_season spec_schema script_link_page ∅) = inl ValueError.
Proof.
  assert (Ht : league_fields spec_schema script_link_page ∅ !! "title"
               = Some (VStr "Premier League")) by (vm_compute; reflexivity).
  assert (Hs : league_fields spec_schema script_link_page ∅ !! "season"
               = Some (VStr "2020/2021")) by (vm_compute; reflexivity).
  assert (Hh : get (xpath (response_xpath script_link_page matches_link) "@href")
               = Some "javascript:void(0)") by (vm_compute; reflexivity).
  destruct (refused_link_after_league spec_schema script_link_page ∅ _ _ _ Ht Hs Hh
              ltac:(discriminate) ltac:(discriminate) eq_refl) as (Hy & _ & Hout).
  split; [exact Hh |]. rewrite Hy. split_and!; [| reflexivity | exact Hout].
  vm_compute. reflexivity.
Defined.

Lemma direct_link_followed_witness :
  let h := VStr (fields_digest [VStr "Premier League"; VStr "2020/2021"]) in
  get (xpath (response_xpath direct_page matches_link) "@href")
    = Some "/england/premier-league/fixtures" /\
  yielded (parse_season spec_schema direct_page ∅)
    = [ YItem 0 League (<["hash" := h]> (league_fields spec_schema direct_page ∅));
        YRequest (Request FollowLink "/england/premier-league/fixtures" parse_matches_cb
                    {[ "league_hash" := h ]}) ].
Proof.
  intros h.
  assert (Ht : league_fields spec_schema direct_page ∅ !! "title"
               = Some (VStr "Premier League")) by (vm_compute; reflexivity).
  assert (Hs : league_fields spec_schema direct_page ∅ !! "season"
               = Some (VStr "2020/2021")) by (vm_compute; reflexivity).
  assert (Hh : get (xpath (response_xpath direct_page matches_link) "@href")
               = Some "/england/premier-league/fixtures") by (vm_compute; reflexivity).
  split; [exact Hh |].
  exact (proj1 (direct_link_followed spec_schema direct_page ∅ _ _ _ Ht Hs Hh
                  ltac:(discriminate) ltac:(discriminate) eq_refl)).
Defined.

(** X7. A matches link whose href is there but empty is treated like a
    link without href: the League is yielded, then yielded again with
    [blocked] true, and no request is made. *)
Theorem empty_href_is_blocked sch r kw title season :
  league_fields sch r kw !! "title" = Some title ->
  league_fields sch r kw !! "season" = Some season ->
  get (xpath (response_xpath r matches_link) "@href") = Some "" ->
  let league := <["hash" := VStr (fields_digest [title; season])]> (league_fields sch r kw) in
  yielded (parse_season sch r kw)
    = [YItem 0 League league; YItem 0 League (<["blocked" := VBool true]> league)] /\
  requests_of (yielded (parse_season sch r kw)) = [] /\
  outcome (parse_season sch r kw) = inr tt.
Proof.
  intros Ht Hs Hhref league.
  unfold yielded, outcome. rewrite parse_season_run. cbv zeta.
  rewrite Ht, Hs, Hhref. cbn [is_str is_falsy String.eqb fst snd st_out requests_of].
  split_and!; reflexivity.
Qed.

(** X8. Whatever the page, [parse_season] yields at most one request and
    at most two League records and no other item; when it yields the
    League twice it yields no request; a record that has [blocked] has it
    true; and it either returns, or raises [KeyError] for title, season,
    data-hash, data-zzz or data-z, or raises the [ValueError] of [follow],
    and then it has yielded the League once and no request. *)
Theorem parse_season_bounds sch r kw :
  (length (requests_of (yielded (parse_season sch r kw))) <= 1)%nat /\
  (length (items_of League (yielded (parse_season sch r kw))) <= 2)%nat /\
  items_of Match (yielded (parse_season sch r kw)) = [] /\
  items_of PostMatchStatistics (yielded (parse_season sch r kw)) = [] /\
  (length (items_of League (yielded (parse_season sch r kw))) = 2%nat ->
   requests_of (yielded (parse_season sch r kw)) = []) /\
  (forall league v,
     league ∈ items_of League (yielded (parse_season sch r kw)) ->
     league !! "blocked" = Some v -> v = VBool true) /\
  (outcome (parse_season sch r kw) = inr tt \/
   (exists key, key ∈ ["title"; "season"; "data-hash"; "data-zzz"; "data-z"] /\
                outcome (parse_season sch r kw) = inl (KeyError key)) \/
   (outcome (parse_season sch r kw) = inl ValueError /\
    length (items_of League (yielded (parse_season sch r kw))) = 1%nat /\
    requests_of (yielded (parse_season sch r kw)) = [])).
Proof.
  assert (Hblocked : forall t s v,
    <["hash" := VStr (fields_digest [t; s])]> (league_fields sch r kw) !! "blocked" = Some v ->
    v = VBool true).
  { intros t s v. rewrite lookup_insert_ne, league_fields_blocked by done. discriminate. }
  unfold yielded, outcome. rewrite parse_season_run. cbv zeta.
  destruct (league_fields sch r kw !! "title") as [t |];
    [| cbn; split_and!; try done; try lia; [intros ?? H; inversion H |];
       right; left; exists "title"; split; [in_list | done] ].
  destruct (league_fields sch r kw !! "season") as [s |];
    [| cbn; split_and!; try done; try lia; [intros ?? H; inversion H |];
       right; left; exists "season"; split; [in_list | done] ].
  repeat match goal with
    | |- context [match ?m !! ?k with _ => _ end] => destruct (m !! k) eqn:?
    | |- context [if ?b then _ else _] => destruct b eqn:?
    end;
    cbn [fst snd st_out items_of requests_of item_class_eqb length];
    (split_and!;
     [ lia | lia | reflexivity | reflexivity | try done; (intros H; discriminate H)
     | intros league v Hin Hb;
       repeat (apply elem_of_cons in Hin as [-> | Hin]);
       [ .. | inversion Hin ];
       first [ by eapply Hblocked
             | rewrite lookup_insert_eq in Hb; by injection Hb ]
     | first [ by left
             | by right; right
             | right; left; eexists; split; [| reflexivity]; in_list ] ]).
Qed.

(** X9. When several elements match the matches link and the href "#"
    comes from a later one, the form fields are still read from the first
    element: the request carries the first element's data attributes, and
    [KeyError] is raised when the first element lacks one. In both cases
    the League record has been yielded, once. *)
Theorem form_fields_from_first_link sch r kw title season first rest :
  league_fields sch r kw !! "title" = Some title ->
  league_fields sch r kw !! "season" = Some season ->
  response_xpath r matches_link = first :: rest ->
  get (xpath (first :: rest) "@href") = Some "#" ->
  let h := VStr (fields_digest [title; season]) in
  items_of League (yielded (parse_season sch r kw))
    = [<["hash" := h]> (league_fields sch r kw)] /\
  match first_missing matches_attrs (sel_attrib first) with
  | Some key =>
      requests_of (yielded (parse_season sch r kw)) = [] /\
      outcome (parse_season sch r kw) = inl (KeyError key)
  | None =>
      requests_of (yielded (parse_season sch r kw))
        = [ Request (FormPost "POST" [ ("hash", attr first "data-hash");
                                       ("zzz", attr first "data-zzz");
                                       ("cur", attr first "data-z") ])
                    (make_url "ajax_league.php") parse_matches_cb
                    {[ "league_hash" := h ]} ] /\
      outcome (parse_season sch r kw) = inr tt
  end.
Proof.
  intros Ht Hs Hsel Hhref h.
  unfold yielded, outcome. rewrite parse_season_run. cbv zeta.
  rewrite Ht, Hs, Hsel, Hhref. cbn [is_str String.eqb Ascii.eqb Bool.eqb attrib].
  unfold first_missing, matches_attrs, attr. cbn [List.find].
  destruct (sel_attrib first !! "data-hash"); [| by split_and!].
  destruct (sel_attrib first !! "data-zzz"); [| by split_and!].
  destruct (sel_attrib first !! "data-z"); by split_and!.
Qed.

Lemma empty_href_is_blocked_witness :
  let r := season_page "Premier League" "2020/2021" [a_link [("href", "")]] in
  get (xpath (response_xpath r matches_link) "@href") = Some "" /\
  requests_of (yielded (parse_season spec_schema r ∅)) = [] /\
  length (items_of League (yielded (parse_season spec_schema r ∅))) = 2%nat.
Proof.
  intros r.
  assert (Ht : league_fields spec_schema r ∅ !! "title" = Some (VStr "Premier League"))
    by (vm_compute; reflexivity).
  assert (Hs : league_fields spec_schema r ∅ !! "season" = Some (VStr "2020/2021"))
    by (vm_compute; reflexivity).
  assert (Hh : get (xpath (response_xpath r matches_link) "@href") = Some "")
    by (vm_compute; reflexivity).
  destruct (empty_href_is_blocked spec_schema r ∅ _ _ Ht Hs Hh) as (Hy & Hrq & _).
  split; [exact Hh |]. split; [exact Hrq |].
  rewrite Hy. reflexivity.
Defined.

Lemma form_fields_from_first_link_witness :
  let r := season_page "Premier League" "2020/2021" [first_link; ajax_link] in
  get (xpath (response_xpath r matches_link) "@href") = Some "#" /\
  requests_of (yielded (parse_season spec_schema r ∅))
    = [ Request (FormPost "POST" [("hash", "f1"); ("zzz", "f2"); ("cur", "f3")])
                "https://footystats.org/ajax_league.php" parse_matches_cb
                {[ "league_hash" := VStr (fields_digest
                                            [VStr "Premier League"; VStr "2020/2021"]) ]} ].
Proof.
  intros r.
  assert (Ht : league_fields spec_schema r ∅ !! "title" = Some (VStr "Premier League"))
    by (vm_compute; reflexivity).
  assert (Hs : league_fields spec_schema r ∅ !! "season" = Some (VStr "2020/2021"))
    by (vm_compute; reflexivity).
  assert (Hsel : response_xpath r matches_link = [first_link; ajax_link])
    by (vm_compute; reflexivity).
  assert (Hh : get (xpath [first_link; ajax_link] "@href") = Some "#")
    by (vm_compute; reflexivity).
  assert (H := form_fields_from_first_link spec_schema r ∅ _ _ _ _ Ht Hs Hsel Hh).
  assert (Hfm : first_missing matches_attrs (sel_attrib first_link) = None)
    by (vm_compute; reflexivity).
  destruct H as [_ H]. rewrite Hfm in H.
  split; [rewrite Hsel; exact Hh |].
  rewrite (proj1 H). vm_compute. reflexivity.
Defined.

(** ** The hash depends on nothing but the fields it is taken from *)

(** X10. Two runs of [parse_season], on any two pages, with any keyword
    arguments and item declarations, store the same League hash when the
    loaded title and season are the same: the matches link, the country
    and the other fields have no part in it. The same holds for the Match
    hash and the four fields it is taken from. *)
Theorem hash_depends_only_on_its_fields sch sch' r r' kw kw' :
  (league_fields sch r kw !! "title" = league_fields sch' r' kw' !! "title" ->
   league_fields sch r kw !! "season" = league_fields sch' r' kw' !! "season" ->
   stored_hash sch r kw = stored_hash sch' r' kw') /\
  (match_fields sch r kw !! "league_hash" = match_fields sch' r' kw' !! "league_hash" ->
   match_fields sch r kw !! "timestamp" = match_fields sch' r' kw' !! "timestamp" ->
   match_fields sch r kw !! "home_team" = match_fields sch' r' kw' !! "home_team" ->
   match_fields sch r kw !! "away_team" = match_fields sch' r' kw' !! "away_team" ->
   stored_match_hash sch r kw = stored_match_hash sch' r' kw').
Proof.
  split.
  - intros Ht Hs. by rewrite !stored_hash_eq, Ht, Hs.
  - intros H1 H2 H3 H4. by rewrite !stored_match_hash_eq, H1, H2, H3, H4.
Qed.

Lemma hash_depends_only_on_its_fields_witness :
  stored_hash spec_schema ajax_page ∅
  = stored_hash spec_schema blocked_page {[ "country" := VStr "england" ]}.
Proof.
  apply (proj1 (hash_depends_only_on_its_fields spec_schema spec_schema
                  ajax_page blocked_page ∅ {[ "country" := VStr "england" ]}));
    vm_compute; reflexivity.
Defined.

(** ** Keyword arguments that are not there *)

Lemma league_fields_country_none sch r kw :
  dict_get kw "country" = VNone -> league_fields sch r kw !! "country" = None.
Proof.
  intros Hkw. unfold league_fields.
  rewrite (right_id_L ∅ (∪)), output_fields_lookup. unfold season_loader.
  rewrite !add_xpath_other by done. rewrite Hkw.
  cbn [add_value is_none ld_values]. by rewrite lookup_empty.
Qed.

Lemma league_fields_country sch r kw c :
  dict_get kw "country" = VStr c ->
  stores_as_is sch League "country" (VStr c) ->
  league_fields sch r kw !! "country" = Some (VStr c).
Proof.
  intros Hkw [Htruthy Hout]. unfold league_fields.
  rewrite (right_id_L ∅ (∪)), output_fields_lookup. unfold season_loader.
  rewrite !add_xpath_other by done. rewrite Hkw.
  rewrite add_value_fresh by (done || apply lookup_empty).
  repeat first [ rewrite (proj1 (add_xpath_frame _ _ _ _))
               | rewrite (proj1 (add_value_frame _ _ _ _)) ].
  cbn [ld_class arg_to_iter]. cbv zeta. by rewrite Htruthy, Hout.
Qed.

Lemma match_fields_league_hash_none sch r kw :
  dict_get kw "league_hash" = VNone -> match_fields sch r kw !! "league_hash" = None.
Proof.
  intros Hkw. unfold match_fields.
  rewrite (right_id_L ∅ (∪)), output_fields_lookup. unfold match_loader, match_loader_teams.
  rewrite !add_xpath_other by done. rewrite Hkw.
  cbn [add_value is_none ld_values]. by rewrite lookup_empty.
Qed.

(** A League record [parse_season] yields is the loaded record with its
    hash, and with [blocked] in the second yield of the paywall branch. *)
Lemma parse_season_league sch r kw obj cls snapshot :
  YItem obj cls snapshot ∈ yielded (parse_season sch r kw) ->
  obj = 0%nat /\ cls = League /\
  exists h,
    snapshot = <["hash" := h]> (league_fields sch r kw) \/
    snapshot = <["blocked" := VBool true]> (<["hash" := h]> (league_fields sch r kw)).
Proof.
  intros Hin. destruct (parse_season_shape sch r kw) as [Hnil | (t & s & _ & _ & Hshape)].
  - rewrite Hnil in Hin. inversion Hin.
  - cbv zeta in Hshape.
    destruct Hshape as [[Hy _] | [[Hy _] | (rq & Hy & _)]]; rewrite Hy in Hin;
      repeat (apply elem_of_cons in Hin as [Hin | Hin]; [try discriminate Hin |]);
      try (inversion Hin; fail);
      injection Hin as -> -> ->; split_and!; eauto.
Qed.

(** X11. Without a [country] keyword argument (or with [None], as
    [parse_league] passes it on when it has none), no League record that
    [parse_season] yields has a [country] field, whatever processors are
    declared: [add_value] ignores [None]. *)
Theorem league_without_country sch r kw obj snapshot :
  dict_get kw "country" = VNone ->
  YItem obj League snapshot ∈ yielded (parse_season sch r kw) ->
  snapshot !! "country" = None.
Proof.
  intros Hkw Hin.
  destruct (parse_season_league _ _ _ _ _ _ Hin) as (_ & _ & h & [-> | ->]);
    rewrite ?lookup_insert_ne by done; by apply league_fields_country_none.
Qed.

Lemma league_without_country_witness :
  dict_get (∅ : gmap string value) "country" = VNone /\
  YItem 0 League sample_league ∈ yielded (parse_season spec_schema ajax_page ∅) /\
  sample_league !! "country" = None.
Proof.
  assert (Hkw : dict_get (∅ : gmap string value) "country" = VNone) by reflexivity.
  assert (H : YItem 0 League sample_league ∈ yielded (parse_season spec_schema ajax_page ∅))
    by (vm_compute; apply list_elem_of_here).
  split; [exact Hkw |]. split; [exact H |].
  exact (league_without_country spec_schema ajax_page ∅ 0%nat sample_league Hkw H).
Defined.

(** X12. Without a [league_hash] keyword argument [parse_match] yields
    nothing on any page, with any item declarations: the Match has no
    [league_hash] field and [match['league_hash']] raises [KeyError]. So
    every match page reached from a [parse_matches] that was called
    without a league hash yields nothing. *)
Theorem match_needs_league_hash sch r kw :
  dict_get kw "league_hash" = VNone ->
  (yielded (parse_match sch r kw) = [] /\
   outcome (parse_match sch r kw) = inl (KeyError "league_hash")) /\
  forall r1 rq r2,
    YRequest rq ∈ yielded (parse_matches r1 kw) ->
    yielded (handle sch rq r2) = [] /\
    outcome (handle sch rq r2) = inl (KeyError "league_hash").
Proof.
  intros Hkw.
  assert (Hmatch : forall r' kw', dict_get kw' "league_hash" = VNone ->
    yielded (parse_match sch r' kw') = [] /\
    outcome (parse_match sch r' kw') = inl (KeyError "league_hash")).
  { intros r' kw' Hkw'. unfold yielded, outcome. rewrite parse_match_run. cbv zeta.
    by rewrite match_fields_league_hash_none. }
  split; [by apply Hmatch |].
  intros r1 rq r2. unfold yielded at 1. rewrite parse_matches_run. cbn [fst st_out].
  intros Hin.
  apply list_elem_of_fmap in Hin as (rq' & [= ->] & Hin).
  apply list_elem_of_fmap in Hin as (url & -> & _).
  unfold handle. cbn [render_match rq_callback rq_cb_kwargs dispatch].
  apply Hmatch. by rewrite dict_get_singleton.
Qed.

Lemma match_needs_league_hash_witness :
  yielded (parse_match spec_schema (match_page [leaf "1600000000"] []) ∅) = [] /\
  outcome (parse_match spec_schema (match_page [leaf "1600000000"] []) ∅)
    = inl (KeyError "league_hash").
Proof.
  exact (proj1 (match_needs_league_hash spec_schema
                  (match_page [leaf "1600000000"] []) ∅ eq_refl)).
Defined.

(** ** What a callback yields, also when it raises half-way *)

Section YieldsOnly.
Context (P : event -> Prop).

Lemma yields_only_ret {A} (a : A) : yields_only P (ret a).
Proof. intros st H. exact H. Qed.

Lemma yields_only_bind {A B} (m : M A) (f : A -> M B) :
  yields_only P m -> (forall a, yields_only P (f a)) -> yields_only P (bind m f).
Proof.
  intros Hm Hf st H. specialize (Hm st H). unfold bind.
  destruct (m st) as [st' [e | a]]; cbn [fst] in *; [exact Hm | by apply Hf].
Qed.

Lemma yields_only_for_each {A} (l : list A) (body : A -> M unit) :
  (forall x, x ∈ l -> yields_only P (body x)) -> yields_only P (for_each l body).
Proof.
  induction l as [| x l IH]; intros Hbody.
  - apply yields_only_ret.
  - cbn [for_each]. apply yields_only_bind.
    + apply Hbody, list_elem_of_here.
    + intros _. apply IH. intros y Hy. by apply Hbody, list_elem_of_further.
Qed.

Lemma yields_only_yielded {A} (m : M A) e :
  yields_only P m -> e ∈ yielded m -> P e.
Proof.
  intros Hm Hin. specialize (Hm init_state (Forall_nil_2 _)).
  rewrite Forall_forall in Hm. by apply Hm.
Qed.

End YieldsOnly.

(** Every event of [parse_leagues] is the request for a league link of a
    country group that has an id, also when a later group has none. *)
Lemma parse_leagues_events r e :
  e ∈ yielded (parse_leagues r) ->
  exists selector country url,
    selector ∈ response_xpath r countries_xpath /\
    sel_attrib selector !! "id" = Some country /\
    url ∈ getall (xpath1 selector leagues_urls_xpath) /\
    e = YRequest (follow_league country url).
Proof.
  apply (yields_only_yielded (fun e => exists selector country url,
    selector ∈ response_xpath r countries_xpath /\
    sel_attrib selector !! "id" = Some country /\
    url ∈ getall (xpath1 selector leagues_urls_xpath) /\
    e = YRequest (follow_league country url))).
  unfold parse_leagues. apply yields_only_for_each. intros selector Hsel st Hst.
  unfold bind at 1. unfold dict_getitem.
  destruct (sel_attrib selector !! "id") as [country |] eqn:Hid; [| exact Hst].
  cbn [ret]. revert st Hst. apply yields_only_for_each. intros url Hurl st Hst.
  unfold bind, follow. destruct (resp_follows r url); [| exact Hst].
  cbn [ret yield_request fst st_out]. apply Forall_app. split; [exact Hst |].
  constructor; [| constructor]. by exists selector, country, url.
Qed.

(** Every event of [parse_league] is the form request of a season entry
    that has its four attributes, with the country passed on. *)
Lemma parse_league_events r kw e :
  e ∈ yielded (parse_league r kw) ->
  exists season,
    season ∈ response_xpath r seasons_xpath /\
    first_missing season_attrs (sel_attrib season) = None /\
    e = YRequest (season_request (dict_get kw "country") season).
Proof.
  apply (yields_only_yielded (fun e => exists season,
    season ∈ response_xpath r seasons_xpath /\
    first_missing season_attrs (sel_attrib season) = None /\
    e = YRequest (season_request (dict_get kw "country") season))).
  unfold parse_league.
  change (response_xpath r _) with (response_xpath r seasons_xpath).
  apply yields_only_for_each. intros season Hsel st Hst.
  rewrite parse_league_entry.
  destruct (first_missing season_attrs (sel_attrib season)) eqn:Hfm; [exact Hst |].
  cbn [fst st_out]. apply Forall_app. split; [exact Hst |].
  constructor; [| constructor]. by exists season.
Qed.

(** ** The country travels down to the League record *)

(** X13. Every request of [parse_leagues] carries the id of its country
    group as [country]; every request [parse_league] then yields carries
    the same value to [parse_season]; and the League records yielded there
    are loaded with it as [country], stored unchanged when the declared
    processors keep a single value as it is. This holds for the requests
    yielded before a callback raises, too. *)
Theorem country_carried sch r rq :
  YRequest rq ∈ yielded (parse_leagues r) ->
  exists selector country,
    selector ∈ response_xpath r countries_xpath /\
    sel_attrib selector !! "id" = Some country /\
    rq_callback rq = parse_league_cb /\
    rq_cb_kwargs rq = {[ "country" := VStr country ]} /\
    forall r2 rq2,
      YRequest rq2 ∈ yielded (handle sch rq r2) ->
      rq_callback rq2 = parse_season_cb /\
      rq_cb_kwargs rq2 = {[ "country" := VStr country ]} /\
      forall r3 obj league,
        YItem obj League league ∈ yielded (handle sch rq2 r3) ->
        stores_as_is sch League "country" (VStr country) ->
        league !! "country" = Some (VStr country).
Proof.
  intros Hin.
  apply parse_leagues_events in Hin as (selector & country & url & Hsel & Hid & _ & [= ->]).
  exists selector, country. split_and!; try done.
  intros r2 rq2. unfold handle at 1. cbn [follow_league rq_callback rq_cb_kwargs dispatch].
  intros Hin2.
  apply parse_league_events in Hin2 as (season & _ & _ & [= ->]).
  rewrite dict_get_singleton. split_and!; try done.
  intros r3 obj league. unfold handle. cbn [season_request rq_callback rq_cb_kwargs dispatch].
  intros Hin3 Hkeep.
  destruct (parse_season_league _ _ _ _ _ _ Hin3) as (_ & _ & h & [-> | ->]);
    rewrite ?lookup_insert_ne by done;
    (apply league_fields_country; [apply dict_get_singleton | exact Hkeep]).
Qed.

Lemma country_carried_witness :
  YRequest (follow_league "england" "/england/premier-league")
    ∈ yielded (parse_leagues leagues_page) /\
  forall obj league,
    YItem obj League league
      ∈ yielded (handle spec_schema (season_request (VStr "england")
                                       (season_entry "a1" "b1" "c1" "2021")) ajax_page) ->
    league !! "country" = Some (VStr "england").
Proof.
  assert (H : YRequest (follow_league "england" "/england/premier-league")
              ∈ yielded (parse_leagues leagues_page))
    by (vm_compute; apply list_elem_of_here).
  split; [exact H |].
  destruct (country_carried spec_schema leagues_page _ H)
    as (selector & country & _ & _ & _ & Hkw & Hdown).
  assert (Hc : country = "england").
  { assert (Hl := f_equal (fun m => m !! "country") Hkw).
    cbn beta in Hl. rewrite lookup_singleton_eq in Hl.
    vm_compute in Hl. by injection Hl as <-. }
  subst country.
  assert (H2 : YRequest (season_request (VStr "england") (season_entry "a1" "b1" "c1" "2021"))
               ∈ yielded (handle spec_schema
                            (follow_league "england" "/england/premier-league") league_page))
    by (vm_compute; apply list_elem_of_here).
  destruct (Hdown league_page _ H2) as (_ & _ & Hleague).
  intros obj league Hin.
  apply (Hleague ajax_page obj league Hin). split; vm_compute; reflexivity.
Defined.

(** ** The crawl as a chain of callbacks *)

Lemma parse_match_no_request sch r kw rq :
  ~ YRequest rq ∈ yielded (parse_match sch r kw).
Proof.
  unfold yielded. rewrite parse_match_run. cbv zeta.
  destruct (match_fields sch r kw !! "league_hash"); [| cbn; by intros ?%elem_of_nil].
  destruct (match_fields sch r kw !! "timestamp"); [| cbn; by intros ?%elem_of_nil].
  destruct (match_fields sch r kw !! "home_team"); [| cbn; by intros ?%elem_of_nil].
  destruct (match_fields sch r kw !! "away_team"); [| cbn; by intros ?%elem_of_nil].
  destruct (response_xpath r statistics_panel); cbn [fst st_out]; intros Hin;
    repeat (apply elem_of_cons in Hin as [Hin | Hin]; [discriminate Hin |]);
    inversion Hin.
Qed.

(** X14. On every page, with any keyword arguments and item declarations,
    and also in a run that raises half-way, the requests a callback yields
    all name the next callback of the chain parse_leagues, parse_league,
    parse_season, parse_matches, parse_match; [parse_match] yields no
    request. *)
Theorem requests_name_the_successor sch cb r kw rq :
  YRequest rq ∈ yielded (dispatch sch cb r kw) ->
  successor cb = Some (rq_callback rq).
Proof.
  destruct cb; cbn [dispatch successor]; intros Hin.
  - by apply parse_leagues_events in Hin as (? & ? & ? & _ & _ & _ & [= ->]).
  - by apply parse_league_events in Hin as (? & _ & _ & [= ->]).
  - destruct (parse_season_shape sch r kw) as [Hnil | (t & s & _ & _ & Hshape)].
    + rewrite Hnil in Hin. inversion Hin.
    + cbv zeta in Hshape.
      destruct Hshape as [[Hy _] | [[Hy _] | (rq' & Hy & Hcb & _)]]; rewrite Hy in Hin;
        repeat (apply elem_of_cons in Hin as [Hin | Hin]; [try discriminate Hin |]);
        try (inversion Hin; fail).
      injection Hin as ->. by rewrite Hcb.
  - unfold yielded in Hin. rewrite parse_matches_run in Hin. cbn [fst st_out] in Hin.
    apply list_elem_of_fmap in Hin as (rq' & [= ->] & Hin).
    by apply list_elem_of_fmap in Hin as (url & -> & _).
  - by apply parse_match_no_request in Hin.
Qed.

Lemma requests_name_the_successor_witness :
  successor parse_season_cb = Some (rq_callback sample_form_request).
Proof.
  apply (requests_name_the_successor spec_schema parse_season_cb ajax_page ∅).
  vm_compute. apply list_elem_of_further, list_elem_of_here.
Defined.

(** X15. Each step from a request to a request its callback yields moves
    one stage down the chain, so a chain of requests has at most four
    steps and never comes back to a callback it has been at. *)
Theorem crawl_depth sch n rq rq' :
  leads_to sch n rq rq' ->
  stage (rq_callback rq') = (stage (rq_callback rq) + n)%nat /\ (n <= 4)%nat.
Proof.
  intros Hchain.
  assert (Hstage : stage (rq_callback rq') = (stage (rq_callback rq) + n)%nat).
  { induction Hchain as [rq | n rq1 rq2 rq3 response Hstep _ IH]; [lia |].
    apply requests_name_the_successor in Hstep.
    rewrite IH. destruct (rq_callback rq1); cbn in Hstep; try discriminate Hstep;
      injection Hstep as <-; cbn; lia. }
  split; [exact Hstage |].
  destruct (rq_callback rq'), (rq_callback rq); cbn in Hstage; lia.
Qed.

Lemma crawl_depth_witness :
  leads_to spec_schema 1 sample_form_request
    (render_match (VStr "e4415541524ca67337fadfa0f3adf9bd") "england/arsenal-vs-chelsea") /\
  stage parse_match_cb = (stage parse_matches_cb + 1)%nat.
Proof.
  assert (H : leads_to spec_schema 1 sample_form_request
    (render_match (VStr "e4415541524ca67337fadfa0f3adf9bd") "england/arsenal-vs-chelsea")).
  { apply (leads_further spec_schema 0 sample_form_request
             (render_match (VStr "e4415541524ca67337fadfa0f3adf9bd")
                           "england/arsenal-vs-chelsea") _ matches_page);
      [| apply leads_here].
    vm_compute. apply list_elem_of_here. }
  split; [exact H |].
  exact (proj1 (crawl_depth spec_schema _ _ _ H)).
Defined.

(** ** The records and their fields *)

Lemma add_value_keys sch ld f v g :
  is_Some (ld_values (add_value sch ld f v) !! g) ->
  g = f \/ is_Some (ld_values ld !! g).
Proof.
  unfold add_value, _add_value.
  destruct (is_none v); [auto |].
  destruct (truthy _); [| auto].
  cbn [ld_values]. destruct (decide (g = f)) as [-> | Hne]; [auto |].
  rewrite lookup_insert_ne by done. auto.
Qed.

Lemma add_xpath_keys sch ld f query g :
  is_Some (ld_values (add_xpath sch ld f query) !! g) ->
  g = f \/ is_Some (ld_values ld !! g).
Proof. apply add_value_keys. Qed.

Lemma output_fields_keys sch ld g :
  is_Some (output_fields sch ld !! g) -> is_Some (ld_values ld !! g).
Proof.
  rewrite output_fields_lookup. destruct (ld_values ld !! g); [eauto | by intros [? ?]].
Qed.

Lemma league_fields_keys sch r kw key :
  is_Some (league_fields sch r kw !! key) -> key ∈ spider_fields League.
Proof.
  unfold league_fields. rewrite (right_id_L ∅ (∪)).
  intros H%output_fields_keys. unfold season_loader in H. cbn [spider_fields].
  loader_keys add_xpath_keys add_value_keys H.
Qed.

Lemma match_fields_keys sch r kw key :
  is_Some (match_fields sch r kw !! key) -> key ∈ spider_fields Match.
Proof.
  unfold match_fields. rewrite (right_id_L ∅ (∪)).
  intros H%output_fields_keys. unfold match_loader, match_loader_teams in H.
  cbn [spider_fields]. loader_keys add_xpath_keys add_value_keys H.
Qed.

Lemma statistics_fields_keys sch r h key :
  is_Some (statistics_fields sch r h !! key) -> key ∈ spider_fields PostMatchStatistics.
Proof.
  unfold statistics_fields. rewrite (right_id_L ∅ (∪)).
  intros H%output_fields_keys. unfold statistics_loader in H.
  cbn [spider_fields]. loader_keys add_xpath_keys add_value_keys H.
Qed.

(** An item [parse_match] yields is the loaded Match with its hash, or
    the loaded statistics. *)
Lemma parse_match_item sch r kw obj cls snapshot :
  YItem obj cls snapshot ∈ yielded (parse_match sch r kw) ->
  (cls = Match /\ exists h, snapshot = <["hash" := h]> (match_fields sch r kw)) \/
  (cls = PostMatchStatistics /\ exists h, snapshot = statistics_fields sch r h).
Proof.
  unfold yielded. rewrite parse_match_run. cbv zeta.
  destruct (match_fields sch r kw !! "league_hash"); [| cbn; by intros ?%elem_of_nil].
  destruct (match_fields sch r kw !! "timestamp"); [| cbn; by intros ?%elem_of_nil].
  destruct (match_fields sch r kw !! "home_team"); [| cbn; by intros ?%elem_of_nil].
  destruct (match_fields sch r kw !! "away_team"); [| cbn; by intros ?%elem_of_nil].
  destruct (response_xpath r statistics_panel); cbn [fst st_out]; intros Hin;
    repeat (apply elem_of_cons in Hin as [Hin | Hin];
            [ injection Hin as _ -> ->; eauto |]);
    inversion Hin.
Qed.

(** X16. Items come from two callbacks only: [parse_season] yields League
    records and [parse_match] yields Match and PostMatchStatistics
    records; [parse_leagues], [parse_league] and [parse_matches] yield no
    item. Whatever the page and the declared processors, a yielded record
    has no field outside those the spider loads or assigns for its
    class. *)
Theorem items_by_callback sch cb r kw obj cls snapshot :
  YItem obj cls snapshot ∈ yielded (dispatch sch cb r kw) ->
  (cb = parse_season_cb /\ cls = League \/
   cb = parse_match_cb /\ (cls = Match \/ cls = PostMatchStatistics)) /\
  forall key, is_Some (snapshot !! key) -> key ∈ spider_fields cls.
Proof.
  destruct cb; cbn [dispatch]; intros Hin.
  - by apply parse_leagues_events in Hin as (? & ? & ? & _ & _ & _ & ?).
  - by apply parse_league_events in Hin as (? & _ & _ & ?).
  - destruct (parse_season_league _ _ _ _ _ _ Hin) as (_ & -> & h & Hsnap).
    split; [auto |]. intros key Hkey.
    assert (Hhash : is_Some (<["hash" := h]> (league_fields sch r kw) !! key) ->
                    key ∈ spider_fields League).
    { intros Hk. destruct (decide (key = "hash")) as [-> | Hne]; [in_list |].
      rewrite lookup_insert_ne in Hk by (intros Heq; by apply Hne).
      by apply league_fields_keys in Hk. }
    destruct Hsnap as [-> | ->]; [by apply Hhash |].
    destruct (decide (key = "blocked")) as [-> | Hne]; [in_list |].
    rewrite lookup_insert_ne in Hkey by (intros Heq; by apply Hne). by apply Hhash.
  - unfold yielded in Hin. rewrite parse_matches_run in Hin. cbn [fst st_out] in Hin.
    by apply list_elem_of_fmap in Hin as (? & ? & _).
  - destruct (parse_match_item _ _ _ _ _ _ Hin) as [[-> [h ->]] | [-> [h ->]]].
    + split; [auto |]. intros key Hkey.
      destruct (decide (key = "hash")) as [-> | Hne]; [in_list |].
      rewrite lookup_insert_ne in Hkey by (intros Heq; by apply Hne). by apply match_fields_keys in Hkey.
    + split; [auto |]. intros key Hkey. by apply statistics_fields_keys in Hkey.
Qed.

Lemma items_by_callback_witness :
  YItem 0 League sample_league ∈ yielded (dispatch spec_schema parse_season_cb ajax_page ∅) /\
  forall key, is_Some (sample_league !! key) -> key ∈ spider_fields League.
Proof.
  assert (H : YItem 0 League sample_league
              ∈ yielded (dispatch spec_schema parse_season_cb ajax_page ∅))
    by (vm_compute; apply list_elem_of_here).
  split; [exact H |].
  exact (proj2 (items_by_callback spec_schema parse_season_cb ajax_page ∅ _ _ _ H)).
Defined.

(** ** [StatsMongoClient] *)

Section MongoFacts.
Context {Connection Database Collection LibraryError : Type}.
Variable MongoClient : string -> LibraryError + Connection.
Variable connection_getitem : Connection -> string -> LibraryError + Database.
Variable database_getitem : Database -> string -> LibraryError + Collection.
Variable collection_bool : Collection -> LibraryError + bool.

(** X17. [__init__] does not create the [__collection] attribute: reading
    the [collection] property of a client on which it was never assigned
    raises [AttributeError]; it does not return [None]. *)
Theorem collection_before_assignment uri database self :
  Mongo.__init__ Connection Database Collection LibraryError
    MongoClient connection_getitem uri database = inr self ->
  Mongo.collection Connection Database Collection LibraryError collection_bool self
  = inl (Mongo.AttributeError LibraryError "_StatsMongoClient__collection").
Proof.
  unfold Mongo.__init__, Mongo.collection. intros Hinit.
  destruct (MongoClient uri) as [e | connection]; [discriminate Hinit |].
  destruct (connection_getitem connection database) as [e | db]; [discriminate Hinit |].
  by injection Hinit as <-.
Qed.

(** X18. Assigning a name to [collection] stores what the database gives
    for that name and leaves the database as it is; reading the property
    afterwards never raises [AttributeError]: it gives that collection when
    its truth test is true, [None] when it is false, and raises what the
    truth test raises. A later assignment replaces the earlier one. *)
Theorem collection_after_assignment self name c :
  database_getitem (Mongo.db Connection Database Collection self) name = inr c ->
  exists self',
    Mongo.set_collection Connection Database Collection LibraryError
      database_getitem self name = inr self' /\
    Mongo.db Connection Database Collection self'
      = Mongo.db Connection Database Collection self /\
    Mongo.collection Connection Database Collection LibraryError collection_bool self'
      = match collection_bool c with
        | inl e => inl (Mongo.Raised LibraryError e)
        | inr true => inr (Some c)
        | inr false => inr None
        end /\
    forall name2 c2,
      database_getitem (Mongo.db Connection Database Collection self) name2 = inr c2 ->
      exists self'',
        Mongo.set_collection Connection Database Collection LibraryError
          database_getitem self' name2 = inr self'' /\
        Mongo.__collection Connection Database Collection self'' = Some c2.
Proof.
  intros Hget. unfold Mongo.set_collection, Mongo.db in *. rewrite Hget.
  eexists. split; [reflexivity |]. split; [reflexivity |]. split.
  - unfold Mongo.collection. cbn. by destruct (collection_bool c) as [e | []].
  - intros name2 c2 Hget2. cbn. rewrite Hget2. eauto.
Qed.

End MongoFacts.

Lemma collection_before_assignment_witness :
  exists self,
    toy_init "mongodb://localhost:27017" "soccer" = inr self /\
    toy_collection self = inl (Mongo.AttributeError unit "_StatsMongoClient__collection").
Proof.
  eexists. split; [reflexivity |].
  exact (collection_before_assignment (Collection := string) (LibraryError := unit)
           (fun uri => inr uri) (fun _ name => inr name) (fun _ => inr true)
           "mongodb://localhost:27017" "soccer" _ eq_refl).
Defined.

Lemma collection_after_assignment_witness :
  exists self self',
    toy_init "mongodb://localhost:27017" "soccer" = inr self /\
    toy_set_collection self "leagues" = inr self' /\
    toy_collection self' = inr (Some "leagues").
Proof.
  eexists.
  destruct (collection_after_assignment (Connection := string) (LibraryError := unit)
              (fun (_ : string) (name : string) => inr name) (fun _ => inr true)
              {| Mongo.__connection := "mongodb://localhost:27017";
                 Mongo.__database := "soccer";
                 Mongo.__collection := None |} "leagues" "leagues" eq_refl)
    as (self' & Hset & _ & Hget & _).
  exists self'. split; [reflexivity |]. split; [exact Hset | exact Hget].
Defined.

(** ** [parse_match]: what holds on every page *)

(** X19. Whatever the page, [parse_match] yields no request and no League,
    at most one Match and at most one statistics record; a statistics
    record is a second object and comes right after the Match it belongs
    to, never without it. The callback either returns or raises
    [KeyError] for league_hash, timestamp, home_team or away_team, and
    when it raises it has yielded nothing. *)
Theorem parse_match_bounds sch r kw :
  requests_of (yielded (parse_match sch r kw)) = [] /\
  items_of League (yielded (parse_match sch r kw)) = [] /\
  (length (items_of PostMatchStatistics (yielded (parse_match sch r kw)))
   <= length (items_of Match (yielded (parse_match sch r kw))) <= 1)%nat /\
  (forall obj statistics,
     YItem obj PostMatchStatistics statistics ∈ yielded (parse_match sch r kw) ->
     obj = 1%nat /\
     exists m, yielded (parse_match sch r kw)
               = [YItem 0 Match m; YItem 1 PostMatchStatistics statistics]) /\
  (outcome (parse_match sch r kw) = inr tt \/
   exists key, key ∈ ["league_hash"; "timestamp"; "home_team"; "away_team"] /\
               outcome (parse_match sch r kw) = inl (KeyError key) /\
               yielded (parse_match sch r kw) = []).
Proof.
  unfold yielded, outcome. rewrite parse_match_run. cbv zeta.
  destruct (match_fields sch r kw !! "league_hash");
    [| cbn; split_and!; try done; try lia; [by intros ?? ?%elem_of_nil |];
       right; exists "league_hash"; split_and!; try done; in_list ].
  destruct (match_fields sch r kw !! "timestamp");
    [| cbn; split_and!; try done; try lia; [by intros ?? ?%elem_of_nil |];
       right; exists "timestamp"; split_and!; try done; in_list ].
  destruct (match_fields sch r kw !! "home_team");
    [| cbn; split_and!; try done; try lia; [by intros ?? ?%elem_of_nil |];
       right; exists "home_team"; split_and!; try done; in_list ].
  destruct (match_fields sch r kw !! "away_team");
    [| cbn; split_and!; try done; try lia; [by intros ?? ?%elem_of_nil |];
       right; exists "away_team"; split_and!; try done; in_list ].
  destruct (response_xpath r statistics_panel);
    cbn [fst snd st_out items_of requests_of item_class_eqb length];
    (split_and!; [reflexivity | reflexivity | lia | lia | | by left]);
    intros obj statistics Hin;
    repeat (apply elem_of_cons in Hin as [Hin | Hin]; [try discriminate Hin |]);
    try (inversion Hin; fail).
  injection Hin as -> ->. eauto.
Qed.
